(** * flytekit.configuration.file: layered configuration lookup

    A shallow embedding of [flytekit/configuration/file.py]: the config
    entry descriptors, the [ConfigFile] loader for INI and YAML files, the
    environment-first resolution of [ConfigEntry.read] and the file locator
    [get_config_file].

    Python values are a small inductive type, exceptions are an error
    result, [os.environ] and the file system are finite maps of a [World].
    Strings are byte strings: [str.lower] and [str.upper] act on the ASCII
    letters.  Calls to the logger and to [print] have no effect on any
    returned value and are left out. *)

From Stdlib Require Import ZArith Ascii String List Bool Lia.
From stdpp Require Import base option gmap strings.

Local Open Scope string_scope.
Local Open Scope Z_scope.

(** ** Python values and exceptions *)

Module Py.

#[local] Set Warnings "-register-all".

Inductive pyval : Type :=
| PNone
| PBool (b : bool)
| PInt (z : Z)
| PStr (s : string)
| PList (l : list pyval)
| PDict (items : list (pyval * pyval)).

(** [configparser.Error] and the subclasses the lookups raise. *)
Inductive cp_error : Type :=
| NoSectionError
| NoOptionError
| InterpolationError
| ParsingError.

Inductive exn : Type :=
| ConfigparserError (e : cp_error)
| ValueError
| KeyError
| TypeError
| AttributeError
| OSError
| FileNotFoundError
| NotADirectoryError
| IsADirectoryError
| YAMLError
| NotImplementedError
| FlyteAssertion.

Inductive result (A : Type) : Type :=
| Ok (a : A)
| Raise (e : exn).
Arguments Ok {A} a.
Arguments Raise {A} e.

Definition bind {A B : Type} (m : result A) (k : A -> result B) : result B :=
  match m with
  | Ok a => k a
  | Raise e => Raise e
  end.

(** Truth value testing, [bool(v)]. *)
Definition truthy (v : pyval) : bool :=
  match v with
  | PNone => false
  | PBool b => b
  | PInt z => negb (z =? 0)
  | PStr s => negb (String.eqb s EmptyString)
  | PList l => match l with [] => false | _ => true end
  | PDict items => match items with [] => false | _ => true end
  end.

Definition is_None (v : pyval) : bool :=
  match v with PNone => true | _ => false end.

(** *** [str] methods *)

Definition is_upper (c : ascii) : bool :=
  let n := nat_of_ascii c in (Nat.leb 65 n && Nat.leb n 90)%bool.

Definition is_lower (c : ascii) : bool :=
  let n := nat_of_ascii c in (Nat.leb 97 n && Nat.leb n 122)%bool.

Definition ascii_lower (c : ascii) : ascii :=
  if is_upper c then ascii_of_nat (nat_of_ascii c + 32) else c.

Definition ascii_upper (c : ascii) : ascii :=
  if is_lower c then ascii_of_nat (nat_of_ascii c - 32) else c.

Fixpoint map_string (f : ascii -> ascii) (s : string) : string :=
  match s with
  | EmptyString => EmptyString
  | String c r => String (f c) (map_string f r)
  end.

Definition lower (s : string) : string := map_string ascii_lower s.
Definition upper (s : string) : string := map_string ascii_upper s.

(** [s.endswith(suffix)] *)
Definition endswith (s suffix : string) : bool :=
  let n := String.length s in
  let k := String.length suffix in
  (Nat.leb k n && String.eqb (String.substring (n - k) k s) suffix)%bool.

(** [s.split(sep)] for a one-character separator. *)
Fixpoint split (sep : ascii) (s : string) : list string :=
  match s with
  | EmptyString => [EmptyString]
  | String c r =>
      if Ascii.eqb c sep then EmptyString :: split sep r
      else match split sep r with
           | h :: t => String c h :: t
           | [] => [String c EmptyString]
           end
  end.

(** Membership of a string in a list literal, [s in [...]]. *)
Definition str_in (s : string) (l : list string) : bool :=
  existsb (String.eqb s) l.

(** *** [int(s)] on a string: surrounding white space, an optional
    sign, decimal digits that single underscores may separate. *)

Definition is_space (c : ascii) : bool :=
  let n := nat_of_ascii c in
  (Nat.eqb n 32 || (Nat.leb 9 n && Nat.leb n 13)
   || (Nat.leb 28 n && Nat.leb n 31))%bool.

Fixpoint lstrip (s : string) : string :=
  match s with
  | String c r => if is_space c then lstrip r else s
  | EmptyString => EmptyString
  end.

Definition rev_string (s : string) : string :=
  string_of_list_ascii (rev (list_ascii_of_string s)).

Definition strip (s : string) : string :=
  rev_string (lstrip (rev_string (lstrip s))).

Definition is_digit (c : ascii) : bool :=
  let n := nat_of_ascii c in (Nat.leb 48 n && Nat.leb n 57)%bool.

Definition digit_value (c : ascii) : Z := Z.of_nat (nat_of_ascii c) - 48.

Fixpoint digits (acc : Z) (after_digit : bool) (s : string) : option Z :=
  match s with
  | EmptyString => if after_digit then Some acc else None
  | String c r =>
      if is_digit c then digits (10 * acc + digit_value c) true r
      else if (Ascii.eqb c "_" && after_digit)%bool then digits acc false r
      else None
  end.

Definition int_of_str (s : string) : result Z :=
  let body :=
    match strip s with
    | String "+" r => digits 0 false r
    | String "-" r => Z.opp <$> digits 0 false r
    | t => digits 0 false t
    end in
  match body with
  | Some z => Ok z
  | None => Raise ValueError
  end.

(** *** Subscription [d[k]] with a string key. *)

Fixpoint dict_getitem (k : string) (items : list (pyval * pyval)) : option pyval :=
  match items with
  | [] => None
  | (PStr s, v) :: rest => if String.eqb s k then Some v else dict_getitem k rest
  | _ :: rest => dict_getitem k rest
  end.

Definition getitem (d : pyval) (k : string) : result pyval :=
  match d with
  | PDict items =>
      match dict_getitem k items with
      | Some v => Ok v
      | None => Raise KeyError
      end
  | _ => Raise TypeError
  end.

End Py.
Export Py.

#[global] Instance result_bind : MBind result := fun A B k m => Py.bind m k.
#[global] Instance result_ret : MRet result := fun A a => Ok a.
#[global] Instance result_fmap : FMap result :=
  fun A B f m => Py.bind m (fun a => Ok (f a)).


(** ** The [configparser] module

    A parser object as its lookups see it: the sections, each a map from
    the lower-cased option names to values, and the defaults.  A value is
    kept as the text that interpolation gives, or as the failure of the
    interpolation. *)

Module configparser.

Inductive value : Type :=
| Text (s : string)
| BadInterpolation.

Record ConfigParser : Type := {
  _sections : gmap string (gmap string value);
  _defaults : gmap string value;
}.

Definition empty : ConfigParser := {| _sections := ∅; _defaults := ∅ |}.

Definition default_section : string := "DEFAULT".

Definition has_section (self : ConfigParser) (section : string) : bool :=
  bool_decide (is_Some (_sections self !! section)).

(** [len(parser)]: the sections and the default section. *)
Definition len (self : ConfigParser) : nat := S (size (_sections self)).

(** The chain of the section's options over the defaults. *)
Definition _unify_values (self : ConfigParser) (section : string)
  : result (gmap string value) :=
  match _sections self !! section with
  | Some sectiondict => Ok (sectiondict ∪ _defaults self)
  | None =>
      if bool_decide (section = default_section) then Ok (_defaults self)
      else Raise (ConfigparserError NoSectionError)
  end.

Definition get (self : ConfigParser) (section option : string) : result string :=
  d ← _unify_values self section;
  match d !! lower option with
  | None => Raise (ConfigparserError NoOptionError)
  | Some (Text s) => Ok s
  | Some BadInterpolation => Raise (ConfigparserError InterpolationError)
  end.

Definition getint (self : ConfigParser) (section option : string) : result Z :=
  v ← get self section option; int_of_str v.

Definition BOOLEAN_STATES : list (string * bool) :=
  [("1", true); ("yes", true); ("true", true); ("on", true);
   ("0", false); ("no", false); ("false", false); ("off", false)].

Fixpoint assoc (k : string) (l : list (string * bool)) : option bool :=
  match l with
  | [] => None
  | (k', b) :: rest => if String.eqb k' k then Some b else assoc k rest
  end.

Definition _convert_to_boolean (v : string) : result bool :=
  match assoc (lower v) BOOLEAN_STATES with
  | Some b => Ok b
  | None => Raise ValueError
  end.

Definition getboolean (self : ConfigParser) (section option : string) : result bool :=
  v ← get self section option; _convert_to_boolean v.

End configparser.
Export configparser.

(** ** The world outside: environment and files

    A file is what the two loaders make of its text: the document that
    [yaml.safe_load] returns and the parser state that [ConfigParser.read]
    builds, each [None] where the loader rejects the text.

    The disk maps the absolute paths of the regular files to the files.
    The directories are the ones these paths go through, and the current
    and the home directory with the ones above them.  There are no symbolic
    links and no permissions: a path fails to resolve only as in
    [resolve]. *)

Record file : Type := {
  yaml_doc : option pyval;
  ini_doc : option ConfigParser;
}.

Record World : Type := {
  environ : gmap string string;
  disk : gmap string file;
  cwd : string;
  home : string;
}.

(** [sep.join(parts)] for a one-character separator. *)
Fixpoint join (sep : ascii) (parts : list string) : string :=
  match parts with
  | [] => EmptyString
  | [x] => x
  | x :: rest => x +:+ String sep (join sep rest)
  end.

(** [c in s] *)
Fixpoint has_char (c : ascii) (s : string) : bool :=
  match s with
  | EmptyString => false
  | String c' r => (Ascii.eqb c' c || has_char c r)%bool
  end.

(** *** Paths as [pathlib] writes them *)

Definition startswith_slash (p : string) : bool :=
  match p with
  | String "/" _ => true
  | _ => false
  end.

(** The root of a path: two leading slashes are kept, three or more are
    one. *)
Definition path_root (p : string) : string :=
  match p with
  | String "/" (String "/" (String "/" _)) => "/"
  | String "/" (String "/" _) => "//"
  | String "/" _ => "/"
  | _ => EmptyString
  end.

(** The components that pathlib keeps: not empty and not ".". *)
Definition path_parts (p : string) : list string :=
  List.filter (λ c, negb (String.eqb c EmptyString || String.eqb c "."))
    (split "/" p).

Definition render (root : string) (parts : list string) : string :=
  match parts with
  | [] => if String.eqb root EmptyString then "." else root
  | _ => root +:+ join "/" parts
  end.

(** [str(Path(p))] *)
Definition normalize (p : string) : string := render (path_root p) (path_parts p).

(** [str(Path(a, b))] *)
Definition joinpath (a b : string) : string :=
  if startswith_slash b then normalize b
  else render (path_root a) (path_parts a ++ path_parts b).

(** [str(Path(p).absolute())] *)
Definition absolute (w : World) (p : string) : string :=
  if startswith_slash p then normalize p else joinpath (cwd w) p.

(** *** Resolving a path, as the system calls do *)

Inductive node : Type :=
| NFile (fh : file)
| NDir.

(** The absolute path of a list of components. *)
Definition key_of (comps : list string) : string := "/" +:+ join "/" comps.

(** The directories above a path, the root first. *)
Definition ancestors (comps : list string) : list (list string) :=
  (λ n, take n comps) <$> seq 0 (length comps).

Definition dirs (w : World) : list (list string) :=
  [] :: path_parts (cwd w) :: ancestors (path_parts (cwd w))
  ++ path_parts (home w) :: ancestors (path_parts (home w))
  ++ concat ((λ kv, ancestors (path_parts kv.1)) <$> map_to_list (disk w)).

Definition is_dir (w : World) (comps : list string) : bool :=
  bool_decide (comps ∈ dirs w).

(** The walk over the components of a path from the directory [cur]: a
    component of more than 255 characters is ENAMETOOLONG, a step through a
    regular file is ENOTDIR, a name that is not there is ENOENT. *)
Fixpoint resolve (w : World) (cur : list string) (comps : list string) : result node :=
  match comps with
  | [] => Ok NDir
  | c :: rest =>
      if (String.eqb c EmptyString || String.eqb c ".")%bool then resolve w cur rest
      else if String.eqb c ".." then resolve w (removelast cur) rest
      else if Nat.ltb 255 (String.length c) then Raise OSError
      else
        match disk w !! key_of (cur ++ [c]) with
        | Some fh =>
            match rest with
            | [] => Ok (NFile fh)
            | _ => Raise NotADirectoryError
            end
        | None =>
            if is_dir w (cur ++ [c]) then resolve w (cur ++ [c]) rest
            else Raise FileNotFoundError
        end
  end.

(** [os.stat(p)]: a NUL character is refused by Python with ValueError,
    the empty path is ENOENT, a path of more than 4095 characters is
    ENAMETOOLONG. *)
Definition stat (w : World) (p : string) : result node :=
  if has_char zero p then Raise ValueError
  else if String.eqb p EmptyString then Raise FileNotFoundError
  else if Nat.ltb 4095 (String.length p) then Raise OSError
  else resolve w (if startswith_slash p then [] else path_parts (cwd w))
         (split "/" p).

(** The path exists: [stat] of the path, as pathlib writes it, succeeds. *)
Definition exists_ (w : World) (p : string) : bool :=
  match stat w (normalize p) with
  | Ok _ => true
  | Raise _ => false
  end.

(** [Path(p).exists()]: ENOENT and ENOTDIR, and ValueError, give [False];
    any other error of [stat] is raised. *)
Definition Path_exists (w : World) (p : string) : result bool :=
  match stat w (normalize p) with
  | Ok _ => Ok true
  | Raise FileNotFoundError | Raise NotADirectoryError | Raise ValueError => Ok false
  | Raise e => Raise e
  end.

(** [open(location, "r")] *)
Definition open (w : World) (location : string) : result file :=
  match stat w location with
  | Ok (NFile fh) => Ok fh
  | Ok NDir => Raise IsADirectoryError
  | Raise e => Raise e
  end.

Definition yaml_safe_load (fh : file) : result pyval :=
  match yaml_doc fh with
  | Some v => Ok v
  | None => Raise YAMLError
  end.

(** [isinstance(e, OSError)] *)
Definition is_OSError (e : exn) : bool :=
  match e with
  | OSError | FileNotFoundError | NotADirectoryError | IsADirectoryError => true
  | _ => false
  end.

(** [ConfigParser.read(filename)]: a file that cannot be opened for an
    OSError is skipped, any other error of [open] is raised, and a file that
    cannot be parsed raises. *)
Definition ConfigParser_read (w : World) (filename : string) : result ConfigParser :=
  match open w filename with
  | Ok fh =>
      match ini_doc fh with
      | Some c => Ok c
      | None => Raise (ConfigparserError ParsingError)
      end
  | Raise e => if is_OSError e then Ok configparser.empty else Raise e
  end.

(** ** Config entry descriptors *)

(** The classes given as [type_]; [Tother] is any class that is not a
    subclass of [bool], [int] or [list]. *)
Inductive pytype : Type := Tstr | Tbool | Tint | Tlist | Tother.

Definition issubclass (t cls : pytype) : bool :=
  match t, cls with
  | Tbool, Tbool | Tbool, Tint | Tint, Tint | Tlist, Tlist
  | Tstr, Tstr | Tother, Tother => true
  | _, _ => false
  end.

Definition transformer : Type := pyval -> result pyval.

(** [transform(v) if transform else v] *)
Definition apply_transform (transform : option transformer) (v : pyval) : result pyval :=
  match transform with
  | Some f => f v
  | None => Ok v
  end.

(** The field [option] is written [option_], next to [type_]. *)
Record LegacyConfigEntry : Type := {
  section : string;
  option_ : string;
  type_ : pytype;
}.

Record YamlConfigEntry : Type := {
  switch : string;
  config_value_type : pytype;
}.

(** What [ConfigFile.get] may be handed. *)
Inductive descriptor : Type :=
| DLegacy (c : LegacyConfigEntry)
| DYaml (c : YamlConfigEntry)
| DOther (v : pyval).

Definition env_name (self : LegacyConfigEntry) : string :=
  "FLYTE_" +:+ upper (section self) +:+ "_" +:+ upper (option_ self).

Definition LegacyConfigEntry_read_from_env
    (self : LegacyConfigEntry) (w : World) (transform : option transformer)
  : result pyval :=
  let env := env_name self in
  match environ w !! env with
  | None => Ok PNone
  | Some v => apply_transform transform (PStr v)
  end.

Definition bool_transformer (config_val : pyval) : result pyval :=
  match config_val with
  | PStr s =>
      Ok (PBool (if (truthy (PStr s)
                     && negb (str_in (lower s) ["false"; "0"; "off"; "no"]))%bool
                 then true else false))
  | other => Ok other
  end.

(** ** ConfigFile *)

Record ConfigFile : Type := {
  _location : string;
  _legacy_config : option ConfigParser;
  _yaml_config : pyval;
}.

(** The argument of the constructor: a [str], or the [pathlib.Path] that
    two calls of [get_config_file] pass.  A [Path] has no [endswith], so
    the first statement of the constructor raises AttributeError on it. *)
Inductive location_arg : Type :=
| AsStr (s : string)
| AsPath (p : string).

Definition _read_yaml_config (w : World) (location : string) : result pyval :=
  fh ← open w location;
  match yaml_safe_load fh with
  | Raise YAMLError => Ok PNone
  | r => r
  end.

Definition _read_legacy_config (w : World) (location : string) : result ConfigParser :=
  c ← ConfigParser_read w location;
  if has_section c "internal" then Raise FlyteAssertion else Ok c.

Definition ConfigFile_init (w : World) (location : location_arg) : result ConfigFile :=
  match location with
  | AsPath _ => Raise AttributeError
  | AsStr location =>
      if endswith location "yaml" then
        y ← _read_yaml_config w location;
        Ok {| _location := location; _legacy_config := None; _yaml_config := y |}
      else
        c ← _read_legacy_config w location;
        Ok {| _location := location; _legacy_config := Some c; _yaml_config := PNone |}
  end.

(** Attribute access on [self._legacy_config], which may be [None]. *)
Definition legacy_parser (self : ConfigFile) : result ConfigParser :=
  match _legacy_config self with
  | Some c => Ok c
  | None => Raise AttributeError
  end.

Definition _get_from_legacy (self : ConfigFile) (c : LegacyConfigEntry) : result pyval :=
  if issubclass (type_ c) Tbool then
    p ← legacy_parser self; PBool <$> getboolean p (section c) (option_ c)
  else if issubclass (type_ c) Tint then
    p ← legacy_parser self; PInt <$> getint p (section c) (option_ c)
  else if issubclass (type_ c) Tlist then
    p ← legacy_parser self;
    v ← configparser.get p (section c) (option_ c);
    Ok (PList (PStr <$> split "," v))
  else
    p ← legacy_parser self; PStr <$> configparser.get p (section c) (option_ c).

(** The loop [for k in keys: d = d[k]]. *)
Fixpoint walk (d : pyval) (keys : list string) : result pyval :=
  match keys with
  | [] => Ok d
  | k :: rest => d' ← getitem d k; walk d' rest
  end.

Definition _get_from_yaml (self : ConfigFile) (c : YamlConfigEntry) : result pyval :=
  let keys := split "." (switch c) in
  match walk (_yaml_config self) keys with
  | Raise KeyError => Ok PNone
  | r => r
  end.

Definition ConfigFile_get (self : ConfigFile) (c : descriptor) : result pyval :=
  match c with
  | DLegacy c => _get_from_legacy self c
  | DYaml c =>
      if truthy (_yaml_config self) then _get_from_yaml self c
      else Raise NotImplementedError
  | DOther _ => Raise NotImplementedError
  end.

(** ** Reading a descriptor from a file *)

Definition LegacyConfigEntry_read_from_file
    (self : LegacyConfigEntry) (cfg : option ConfigFile)
    (transform : option transformer) : result pyval :=
  match cfg with
  | None => Ok PNone
  | Some cfg =>
      match v ← ConfigFile_get cfg (DLegacy self); apply_transform transform v with
      | Raise (ConfigparserError _) => Ok PNone
      | r => r
      end
  end.

Definition YamlConfigEntry_read_from_file
    (self : YamlConfigEntry) (cfg : option ConfigFile)
    (transform : option transformer) : result pyval :=
  match cfg with
  | None => Ok PNone
  | Some cfg =>
      match v ← ConfigFile_get cfg (DYaml self);
            if truthy v then apply_transform transform v else Ok PNone with
      | Raise _ => Ok PNone
      | Ok r => Ok r
      end
  end.

(** ** ConfigEntry *)

Record ConfigEntry : Type := {
  legacy : LegacyConfigEntry;
  yaml_entry : option YamlConfigEntry;
  transform : option transformer;
}.

(** The class attribute, a dict keyed by the type. *)
Definition legacy_default_transforms (t : pytype) : option transformer :=
  match t with
  | Tbool => Some bool_transformer
  | _ => None
  end.

Definition __post_init__ (self : ConfigEntry) : ConfigEntry :=
  match transform self, legacy_default_transforms (type_ (legacy self)) with
  | None, Some t =>
      {| legacy := legacy self; yaml_entry := yaml_entry self; transform := Some t |}
  | _, _ => self
  end.

(** The dataclass constructor: the fields, then [__post_init__]. *)
Definition ConfigEntry_new (legacy : LegacyConfigEntry)
    (yaml_entry : option YamlConfigEntry) (transform : option transformer)
  : ConfigEntry :=
  __post_init__
    {| legacy := legacy; yaml_entry := yaml_entry; transform := transform |}.

(** [cfg and cfg.legacy_config]: a parser is true when its length is
    not zero. *)
Definition has_legacy_config (cfg : option ConfigFile) : bool :=
  match cfg with
  | Some c =>
      match _legacy_config c with
      | Some p => negb (Nat.eqb (configparser.len p) 0)
      | None => false
      end
  | None => false
  end.

(** [cfg and cfg.yaml_config and self.yaml_entry] *)
Definition has_yaml_config (cfg : option ConfigFile) (yaml_entry : option YamlConfigEntry)
  : bool :=
  match cfg with
  | Some c => (truthy (_yaml_config c) && bool_decide (is_Some yaml_entry))%bool
  | None => false
  end.

Definition ConfigEntry_read (self : ConfigEntry) (w : World) (cfg : option ConfigFile)
  : result pyval :=
  from_env ← LegacyConfigEntry_read_from_env (legacy self) w (transform self);
  if negb (is_None from_env) then Ok from_env
  else if has_legacy_config cfg then
    LegacyConfigEntry_read_from_file (legacy self) cfg (transform self)
  else if has_yaml_config cfg (yaml_entry self) then
    match yaml_entry self with
    | Some y => YamlConfigEntry_read_from_file y cfg (transform self)
    | None => Raise AttributeError
    end
  else Ok PNone.

(** ** Locating the config file *)

Definition FLYTECTL_CONFIG_ENV_VAR : string := "FLYTECTL_CONFIG".

Inductive hint : Type :=
| HNone
| HStr (s : string)
| HConfigFile (c : ConfigFile).

Definition get_config_file (w : World) (c : hint) : result (option ConfigFile) :=
  match c with
  | HNone =>
      let current_location_config := "flytekit.config" in
      found ← Path_exists w current_location_config;
      if found : bool then
        Some <$> ConfigFile_init w (AsPath (absolute w current_location_config))
      else
        let home_dir_config := joinpath (joinpath (home w) ".flyte") "config" in
        found ← Path_exists w home_dir_config;
        if found : bool then
          Some <$> ConfigFile_init w (AsPath (absolute w home_dir_config))
        else
          let yaml_in_home :=
            let home_dir_yaml_config :=
              joinpath (joinpath (home w) ".flyte") "config.yaml" in
            found ← Path_exists w home_dir_yaml_config;
            if found : bool then
              Some <$> ConfigFile_init w (AsStr (absolute w home_dir_yaml_config))
            else Ok None in
          match environ w !! FLYTECTL_CONFIG_ENV_VAR with
          | Some flytectl_path_from_env =>
              if truthy (PStr flytectl_path_from_env) then
                found ← Path_exists w flytectl_path_from_env;
                if found : bool then
                  Some <$> ConfigFile_init w (AsStr (absolute w flytectl_path_from_env))
                else yaml_in_home
              else yaml_in_home
          | None => yaml_in_home
          end
  | HStr s => Some <$> ConfigFile_init w (AsStr s)
  | HConfigFile c => Ok (Some c)
  end.

(** ** Sample data *)

Definition ini_sample : ConfigParser :=
  {| _sections :=
       {[ "platform" := {[ "url" := Text "from-file"; "retries" := Text "abc";
                           "insecure" := Text "maybe"; "tags" := Text "x,y,z" ]} ]};
     _defaults := ∅ |}.

Definition cfg_ini : ConfigFile :=
  {| _location := "flytekit.config"; _legacy_config := Some ini_sample;
     _yaml_config := PNone |}.

Definition platform_url : LegacyConfigEntry :=
  {| section := "platform"; option_ := "url"; type_ := Tstr |}.

Definition world_with (v : string) : World :=
  {| environ := {[ "FLYTE_PLATFORM_URL" := v ]}; disk := ∅;
     cwd := "/work"; home := "/home/u" |}.

(** [lambda v: None if v == "none" else v] *)
Definition none_if_none : transformer :=
  fun v => match v with
           | PStr s => if String.eqb s "none" then Ok PNone else Ok v
           | _ => Ok v
           end.

(** [lambda v: v or None] *)
Definition none_if_empty : transformer :=
  fun v => if truthy v then Ok v else Ok PNone.

(** ** Predicates of the statements *)

(** A key of the path is missing: the walk reaches a mapping that does
    not hold the next key. *)
Fixpoint missing_key (d : pyval) (keys : list string) : bool :=
  match keys with
  | [] => false
  | k :: rest =>
      match d with
      | PDict items =>
          match dict_getitem k items with
          | None => true
          | Some d' => missing_key d' rest
          end
      | _ => false
      end
  end.

Definition yaml_backed (location : string) (doc : pyval) : ConfigFile :=
  {| _location := location; _legacy_config := None; _yaml_config := doc |}.

Definition doc_abc_42 : pyval :=
  PDict [(PStr "a", PDict [(PStr "b", PDict [(PStr "c", PInt 42)])])].

Definition doc_ab_empty : pyval :=
  PDict [(PStr "a", PDict [(PStr "b", PDict [])])].

(** [c'] is the character [c] or, when [c] is a small letter, its capital. *)
Definition letter_case_variant (c c' : ascii) : bool :=
  (Ascii.eqb c c'
   || (is_lower c && Nat.eqb (nat_of_ascii c' + 32) (nat_of_ascii c)))%bool.

(** [s] spells [word] in some letter case. *)
Fixpoint case_variant (word s : string) : bool :=
  match word, s with
  | EmptyString, EmptyString => true
  | String c word', String c' s' =>
      (letter_case_variant c c' && case_variant word' s')%bool
  | _, _ => false
  end.

Fixpoint no_capital (word : string) : bool :=
  match word with
  | EmptyString => true
  | String c word' => (negb (is_upper c) && no_capital word')%bool
  end.

(** ** More sample data *)

Definition w_files : World :=
  {| environ := ∅;
     disk :=
       {[ "/work/bad.yaml" := {| yaml_doc := None; ini_doc := None |};
          "/work/internal.ini" :=
            {| yaml_doc := None;
               ini_doc := Some {| _sections := {[ "internal" := ∅;
                                                    "platform" := {[ "url" := Text "u" ]} ]};
                                  _defaults := ∅ |} |};
          "/work/plain.ini" := {| yaml_doc := None; ini_doc := Some ini_sample |} ]};
     cwd := "/work"; home := "/home/u" |}.

(** ** Joining and nesting, for the round trips *)

(** How many times [c] occurs in [s]. *)
Fixpoint count_char (c : ascii) (s : string) : nat :=
  match s with
  | EmptyString => O
  | String c' r => if Ascii.eqb c' c then S (count_char c r) else count_char c r
  end.

(** The document [{k1: {k2: ... {kn: v}}}]. *)
Fixpoint nest (keys : list string) (v : pyval) : pyval :=
  match keys with
  | [] => v
  | k :: rest => PDict [(PStr k, nest rest v)]
  end.

(** An INI document with one option in one section, a file backed by
    it, and a world with an empty environment and no file. *)
Definition ini_with (s o v : string) : ConfigParser :=
  {| _sections := {[ s := {[ o := Text v ]} ]}; _defaults := ∅ |}.

Definition cfg_with (s o v : string) : ConfigFile :=
  {| _location := "flytekit.config"; _legacy_config := Some (ini_with s o v);
     _yaml_config := PNone |}.

Definition world_unset : World :=
  {| environ := ∅; disk := ∅; cwd := "/work"; home := "/home/u" |}.

(** ** [set_if_exists]

    Dict objects live in a store, addressed by reference: the function
    mutates the dict it is given and returns the same reference. *)



(** A world where only the file that FLYTECTL_CONFIG names and the YAML
    file of the home directory exist. *)
Definition w_locator : World :=
  {| environ := {[ "FLYTECTL_CONFIG" := "/etc/flyte/sandbox.yaml" ]};
     disk := {[ "/etc/flyte/sandbox.yaml" :=
                  {| yaml_doc := Some doc_abc_42; ini_doc := None |};
                "/home/u/.flyte/config.yaml" :=
                  {| yaml_doc := Some doc_ab_empty; ini_doc := None |} ]};
     cwd := "/work"; home := "/home/u" |}.

(** ** ASCII strings and upper-casing, as the statements say it *)

(** Every character is below 128: on such strings [upper] and [lower]
    are Python's [str.upper] and [str.lower]. *)
Fixpoint is_ascii (s : string) : bool :=
  match s with
  | EmptyString => true
  | String c r => (Nat.ltb (nat_of_ascii c) 128 && is_ascii r)%bool
  end.

Fixpoint no_small (s : string) : bool :=
  match s with
  | EmptyString => true
  | String c r => (negb (is_lower c) && no_small r)%bool
  end.

(** [S] is [s] with every small letter replaced by its capital: it
    spells [s] up to capitals and holds no small letter. *)
Definition upper_cased (s S : string) : Prop :=
  case_variant s S = true ∧ no_small S = true.

(** The walk reaches a value that is not a mapping while keys remain. *)
Fixpoint hits_non_mapping (d : pyval) (keys : list string) : bool :=
  match keys with
  | [] => false
  | k :: rest =>
      match d with
      | PDict items =>
          match dict_getitem k items with
          | None => false
          | Some d' => hits_non_mapping d' rest
          end
      | _ => true
      end
  end.

(** ** Name-length limits, and a name beyond them *)




(** A component as [path_parts] keeps it. *)
Definition valid_part (c : string) : Prop :=
  negb (String.eqb c EmptyString || String.eqb c ".") = true
  ∧ has_char "/" c = false.

(** * Properties *)

Ltac unfold_result := unfold mbind, result_bind, fmap, result_fmap, Py.bind in *.

Lemma is_None_false (v : pyval) : v ≠ PNone → is_None v = false.
Proof. by destruct v. Qed.

(** ** The errors of the file system *)

Lemma resolve_raises (w : World) (cur comps : list string) (e : exn) :
  resolve w cur comps = Raise e →
  e = OSError ∨ e = NotADirectoryError ∨ e = FileNotFoundError.
Proof.
  revert cur. induction comps as [|c rest IH]; intros cur; cbn [resolve]; [done|].
  repeat case_match; try apply IH; intros [= <-]; auto.
Qed.

Lemma stat_raises (w : World) (p : string) (e : exn) :
  stat w p = Raise e →
  e = ValueError ∨ e = OSError ∨ e = NotADirectoryError ∨ e = FileNotFoundError.
Proof.
  unfold stat. repeat case_match; try (intros [= <-]; auto).
  all: intros Hres; destruct (resolve_raises _ _ _ _ Hres) as [->|[->| ->]]; auto.
Qed.

Lemma open_raises (w : World) (location : string) (e : exn) :
  open w location = Raise e → e = ValueError ∨ is_OSError e = true.
Proof.
  unfold open. destruct (stat w location) as [[fh|]|e'] eqn:Hstat; [done| |].
  - intros [= <-]. by right.
  - intros [= <-]. destruct (stat_raises _ _ _ Hstat) as [->|[->|[->| ->]]]; auto.
Qed.

Lemma ConfigParser_read_raises (w : World) (filename : string) (e : exn) :
  ConfigParser_read w filename = Raise e →
  e = ValueError ∨ e = ConfigparserError ParsingError.
Proof.
  unfold ConfigParser_read. destruct (open w filename) as [fh|e'] eqn:Hopen.
  - destruct (ini_doc fh); [done|]. intros [= <-]. by right.
  - destruct (open_raises _ _ _ Hopen) as [->|Hos]; [intros [= <-]; by left|].
    by rewrite Hos.
Qed.




Lemma Path_exists_inv (w : World) (p : string) (b : bool) :
  Path_exists w p = Ok b → exists_ w p = b.
Proof.
  unfold exists_, Path_exists.
  destruct (stat w (normalize p)) as [n|e]; [congruence|]. destruct e; congruence.
Qed.


Lemma has_legacy_config_spec (c : ConfigFile) :
  has_legacy_config (Some c) = bool_decide (is_Some (_legacy_config c)).
Proof.
  unfold has_legacy_config. by destruct (_legacy_config c) as [p|].
Qed.

Example env_name_platform_url : env_name platform_url = "FLYTE_PLATFORM_URL".
Proof. reflexivity. Qed.

(** ** Reading from the environment *)



Lemma letter_upper_unique (c c' : ascii) :
  letter_case_variant c c' = true → is_lower c' = false → c' = ascii_upper c.
Proof.
  unfold letter_case_variant, ascii_upper.
  intros [Heq|[Hlow Hcode]%andb_true_iff]%orb_true_iff Hc'.
  - apply Ascii.eqb_eq in Heq as ->. by rewrite Hc'.
  - rewrite Hlow. apply Nat.eqb_eq in Hcode. rewrite <- Hcode.
    rewrite Nat.add_sub. symmetry. apply ascii_nat_embedding.
Qed.

(** The upper-casing of a string is the only string that [upper_cased]
    accepts for it. *)
Lemma upper_cased_unique (s S : string) : upper_cased s S → S = upper s.
Proof.
  unfold upper_cased, upper. revert S.
  induction s as [|c s IH]; intros [|c' S]; cbn [case_variant no_small map_string];
    intros [Hvar Hsmall]; try done.
  apply andb_true_iff in Hvar as [Hc Hs].
  apply andb_true_iff in Hsmall as [Hc'%negb_true_iff HS].
  by rewrite (letter_upper_unique c c' Hc Hc'), (IH S (conj Hs HS)).
Qed.



(** ** Precedence of the environment *)

(** C1, amended: when the entry's environment variable is set and the
    transform (if any) does not turn the raw value into [None], [read]
    gives exactly what the transform gives on the raw value, whatever
    config file is passed, or none. *)
Theorem read_env_precedence (self : ConfigEntry) (w : World) (raw : string)
    (r : result pyval) :
  environ w !! env_name (legacy self) = Some raw →
  apply_transform (transform self) (PStr raw) = r →
  r ≠ Ok PNone →
  ∀ cfg : option ConfigFile, ConfigEntry_read self w cfg = r.
Proof.
  intros Henv Hr Hnone cfg.
  unfold ConfigEntry_read, LegacyConfigEntry_read_from_env.
  rewrite Henv, Hr. destruct r as [v|e]; [|done].
  unfold_result. rewrite is_None_false; [done|]. congruence.
Qed.

Lemma read_env_precedence_witness :
  ConfigEntry_read (ConfigEntry_new platform_url None None) (world_with "from-env")
    (Some cfg_ini) = Ok (PStr "from-env").
Proof.
  apply (read_env_precedence (ConfigEntry_new platform_url None None)
           (world_with "from-env") "from-env").
  - vm_compute. reflexivity.
  - reflexivity.
  - discriminate.
Defined.

(** C1 as stated fails: with a transform that maps the raw value to
    [None], [read] goes on to the file and returns the file's value. *)
Lemma read_env_precedence_counterexample :
  let e := ConfigEntry_new platform_url None (Some none_if_none) in
  let w := world_with "none" in
  environ w !! env_name (legacy e) = Some "none"
  ∧ apply_transform (transform e) (PStr "none") = Ok PNone
  ∧ ConfigEntry_read e w None = Ok PNone
  ∧ ConfigEntry_read e w (Some cfg_ini) = Ok (PStr "from-file").
Proof. vm_compute. auto. Qed.

Lemma post_init_bool (l : LegacyConfigEntry) (y : option YamlConfigEntry) :
  type_ l = Tbool → transform (ConfigEntry_new l y None) = Some bool_transformer.
Proof. intros Hty. unfold ConfigEntry_new, __post_init__. simpl. by rewrite Hty. Qed.

Lemma post_init_legacy (l : LegacyConfigEntry) (y : option YamlConfigEntry)
    (t : option transformer) :
  legacy (ConfigEntry_new l y t) = l.
Proof.
  unfold ConfigEntry_new, __post_init__. simpl.
  destruct t; [done|]. by destruct (legacy_default_transforms (type_ l)).
Qed.

(** C10, amended: when the entry's environment variable is set to the
    empty string and the transform (if any) gives a value other than [None]
    on the empty string, [read_from_env] returns that present value and
    [read] returns it for every optional config file, without going on to
    the file: the empty string itself when there is no transform, [False]
    under the boolean transform. *)
Theorem read_env_empty_string (self : ConfigEntry) (w : World) :
  environ w !! env_name (legacy self) = Some EmptyString →
  (∀ v : pyval,
     apply_transform (transform self) (PStr EmptyString) = Ok v → v ≠ PNone →
     LegacyConfigEntry_read_from_env (legacy self) w (transform self) = Ok v
     ∧ ∀ cfg : option ConfigFile, ConfigEntry_read self w cfg = Ok v)
  ∧ (transform self = None →
     ∀ cfg : option ConfigFile, ConfigEntry_read self w cfg = Ok (PStr EmptyString))
  ∧ (transform self = Some bool_transformer →
     ∀ cfg : option ConfigFile, ConfigEntry_read self w cfg = Ok (PBool false)).
Proof.
  intros Henv.
  assert (Hgen : ∀ v, apply_transform (transform self) (PStr EmptyString) = Ok v →
                      v ≠ PNone →
                      ∀ cfg, ConfigEntry_read self w cfg = Ok v).
  { intros v Hv Hne cfg. unfold ConfigEntry_read, LegacyConfigEntry_read_from_env.
    rewrite Henv, Hv. unfold_result. by rewrite is_None_false. }
  split; [|split].
  - intros v Hv Hne. split; [|by apply Hgen].
    unfold LegacyConfigEntry_read_from_env. by rewrite Henv.
  - intros Ht. apply Hgen; [by rewrite Ht|done].
  - intros Ht. apply Hgen; [by rewrite Ht|done].
Qed.

Lemma read_env_empty_string_witness :
  ConfigEntry_read
    (ConfigEntry_new {| section := "platform"; option_ := "url"; type_ := Tbool |}
       None None)
    (world_with EmptyString) (Some cfg_ini) = Ok (PBool false).
Proof.
  apply (read_env_empty_string
           (ConfigEntry_new {| section := "platform"; option_ := "url"; type_ := Tbool |}
              None None)
           (world_with EmptyString)).
  - vm_compute. reflexivity.
  - reflexivity.
Defined.

(** C10 as stated fails: a transform that maps the empty string to [None]
    makes [read_from_env] return absent, and [read] goes on to the file. *)
Lemma read_env_empty_string_counterexample :
  let e := ConfigEntry_new platform_url None (Some none_if_empty) in
  let w := world_with EmptyString in
  environ w !! env_name (legacy e) = Some EmptyString
  ∧ LegacyConfigEntry_read_from_env (legacy e) w (transform e) = Ok PNone
  ∧ ConfigEntry_read e w (Some cfg_ini) = Ok (PStr "from-file").
Proof. vm_compute. auto. Qed.

(** ** Reading a legacy entry from a file *)

Lemma get_missing_section (p : ConfigParser) (s o : string) :
  _sections p !! s = None → s ≠ default_section →
  configparser.get p s o = Raise (ConfigparserError NoSectionError).
Proof.
  intros Hs Hd. unfold configparser.get, _unify_values. rewrite Hs.
  by rewrite bool_decide_eq_false_2.
Qed.

Lemma get_missing_option (p : ConfigParser) (s o : string) (d : gmap string value) :
  _sections p !! s = Some d → d !! lower o = None → _defaults p !! lower o = None →
  configparser.get p s o = Raise (ConfigparserError NoOptionError).
Proof.
  intros Hs Ho Hd. unfold configparser.get, _unify_values. rewrite Hs.
  unfold_result. replace ((d ∪ _defaults p) !! lower o) with (@None value); [done|].
  symmetry. by apply lookup_union_None_2.
Qed.

Lemma get_from_legacy_error (cfg : ConfigFile) (p : ConfigParser)
    (c : LegacyConfigEntry) (e : exn) :
  _legacy_config cfg = Some p →
  configparser.get p (section c) (option_ c) = Raise e →
  ConfigFile_get cfg (DLegacy c) = Raise e.
Proof.
  intros Hp Hget. unfold ConfigFile_get, _get_from_legacy, legacy_parser.
  unfold getboolean, getint. rewrite Hp. unfold_result. rewrite !Hget.
  by repeat case_match.
Qed.

(** A missing section or option is absorbed, for every type of entry. *)
Lemma legacy_missing_is_absent (cfg : ConfigFile) (p : ConfigParser)
    (c : LegacyConfigEntry) (t : option transformer) (e : cp_error) :
  _legacy_config cfg = Some p →
  configparser.get p (section c) (option_ c) = Raise (ConfigparserError e) →
  LegacyConfigEntry_read_from_file c (Some cfg) t = Ok PNone.
Proof.
  intros Hp Hget. unfold LegacyConfigEntry_read_from_file.
  by rewrite (get_from_legacy_error cfg p c _ Hp Hget).
Qed.

(** C2, amended: [read_from_file] returns absent whenever the lookup in
    the file fails with a [configparser.Error] (no such section, no such
    option, a failed interpolation), and it never lets a
    [configparser.Error] reach the caller.  Every other failure of the lookup
    reaches the caller unchanged: a value of ASCII characters on which
    [int] raises ValueError, for an int entry, or on which the parser's
    boolean conversion raises ValueError, for a bool entry, makes
    [read_from_file] raise ValueError. *)
Theorem legacy_read_from_file_swallows (self : LegacyConfigEntry) (cfg : ConfigFile)
    (t : option transformer) :
  (∀ e : cp_error,
     ConfigFile_get cfg (DLegacy self) = Raise (ConfigparserError e) →
     LegacyConfigEntry_read_from_file self (Some cfg) t = Ok PNone)
  ∧ (∀ e : cp_error,
       LegacyConfigEntry_read_from_file self (Some cfg) t
       ≠ Raise (ConfigparserError e))
  ∧ (∀ e : exn,
       (∀ c : cp_error, e ≠ ConfigparserError c) →
       ConfigFile_get cfg (DLegacy self) = Raise e →
       LegacyConfigEntry_read_from_file self (Some cfg) t = Raise e)
  ∧ (∀ (p : ConfigParser) (raw : string),
       _legacy_config cfg = Some p →
       configparser.get p (section self) (option_ self) = Ok raw →
       is_ascii raw = true →
       (type_ self = Tint → int_of_str raw = Raise ValueError →
        LegacyConfigEntry_read_from_file self (Some cfg) t = Raise ValueError)
       ∧ (type_ self = Tbool → _convert_to_boolean raw = Raise ValueError →
          LegacyConfigEntry_read_from_file self (Some cfg) t = Raise ValueError)).
Proof.
  assert (Hother : ∀ e : exn,
            (∀ c : cp_error, e ≠ ConfigparserError c) →
            ConfigFile_get cfg (DLegacy self) = Raise e →
            LegacyConfigEntry_read_from_file self (Some cfg) t = Raise e).
  { intros e Hne Hget. unfold LegacyConfigEntry_read_from_file. rewrite Hget.
    unfold_result. destruct e as [c| | | | | | | | | | |]; try done.
    by destruct (Hne c). }
  split; [|split; [|split]].
  - intros e Hget. unfold LegacyConfigEntry_read_from_file. by rewrite Hget.
  - intros e. unfold LegacyConfigEntry_read_from_file.
    destruct (ConfigFile_get cfg (DLegacy self)) as [v|e']; unfold_result.
    + destruct (apply_transform t v) as [v'|e'']; [done|]. by destruct e''.
    + by destruct e'.
  - exact Hother.
  - intros p raw Hp Hget _. split.
    + intros Hty Hint. apply Hother; [done|].
      unfold ConfigFile_get, _get_from_legacy, legacy_parser, getint.
      rewrite Hty, Hp. cbn [issubclass]. unfold_result. by rewrite Hget, Hint.
    + intros Hty Hbool. apply Hother; [done|].
      unfold ConfigFile_get, _get_from_legacy, legacy_parser, getboolean.
      rewrite Hty, Hp. cbn [issubclass]. unfold_result. by rewrite Hget, Hbool.
Qed.

Lemma legacy_read_from_file_swallows_witness :
  LegacyConfigEntry_read_from_file
    {| section := "platform"; option_ := "missing"; type_ := Tint |}
    (Some cfg_ini) None = Ok PNone.
Proof.
  apply (proj1 (legacy_read_from_file_swallows
                  {| section := "platform"; option_ := "missing"; type_ := Tint |}
                  cfg_ini None) NoOptionError).
  vm_compute. reflexivity.
Defined.

(** C2 as stated fails: a value that is not an integer, or not one of the
    boolean words, makes the lookup raise [ValueError], which is not a
    [configparser.Error] and reaches the caller. *)
Lemma legacy_read_from_file_counterexample :
  LegacyConfigEntry_read_from_file
    {| section := "platform"; option_ := "retries"; type_ := Tint |}
    (Some cfg_ini) None = Raise ValueError
  ∧ LegacyConfigEntry_read_from_file
      {| section := "platform"; option_ := "insecure"; type_ := Tbool |}
      (Some cfg_ini) None = Raise ValueError.
Proof. vm_compute. auto. Qed.

(** ** Constructing a ConfigFile *)

Lemma init_yaml_inv (w : World) (location : string) (cfg : ConfigFile) :
  endswith location "yaml" = true →
  ConfigFile_init w (AsStr location) = Ok cfg →
  ∃ fh, open w location = Ok fh
        ∧ cfg = {| _location := location; _legacy_config := None;
                   _yaml_config := default PNone (yaml_doc fh) |}.
Proof.
  intros Hsuf. unfold ConfigFile_init. rewrite Hsuf.
  unfold _read_yaml_config, yaml_safe_load.
  destruct (open w location) as [fh|e]; unfold_result; [|done].
  intros Hcfg. exists fh. split; [done|].
  destruct (yaml_doc fh); simpl in *; congruence.
Qed.

Lemma init_legacy_inv (w : World) (location : string) (cfg : ConfigFile) :
  endswith location "yaml" = false →
  ConfigFile_init w (AsStr location) = Ok cfg →
  ∃ c, ConfigParser_read w location = Ok c
       ∧ has_section c "internal" = false
       ∧ cfg = {| _location := location; _legacy_config := Some c;
                  _yaml_config := PNone |}.
Proof.
  intros Hsuf. unfold ConfigFile_init. rewrite Hsuf. unfold _read_legacy_config.
  destruct (ConfigParser_read w location) as [c|e]; unfold_result; [|done].
  destruct (has_section c "internal") eqn:Hint; [done|].
  intros Hcfg. exists c. split; [done|]. split; [done|]. congruence.
Qed.

(** C3, amended: a ConfigFile constructed from a location string never
    has both documents populated.  When the location ends in "yaml" the
    legacy document is absent and the YAML document is what the YAML loader
    returned for the file, and absent when the loader rejected the content;
    otherwise the legacy INI document is populated and the YAML document is
    absent. *)
Theorem config_file_documents (w : World) (location : string) (cfg : ConfigFile) :
  ConfigFile_init w (AsStr location) = Ok cfg →
  (endswith location "yaml" = true →
     _legacy_config cfg = None
     ∧ ∃ fh, open w location = Ok fh
             ∧ _yaml_config cfg = default PNone (yaml_doc fh))
  ∧ (endswith location "yaml" = false →
       is_Some (_legacy_config cfg) ∧ _yaml_config cfg = PNone)
  ∧ ¬ (is_Some (_legacy_config cfg) ∧ _yaml_config cfg ≠ PNone).
Proof.
  intros Hinit. destruct (endswith location "yaml") eqn:Hsuf.
  - destruct (init_yaml_inv _ _ _ Hsuf Hinit) as (fh & Hfh & ->). simpl.
    split; [|split]; [eauto|done|]. by intros [[? ?] _].
  - destruct (init_legacy_inv _ _ _ Hsuf Hinit) as (c & Hc & _ & ->). simpl.
    split; [|split]; [done|eauto|]. by intros [_ ?].
Qed.

Lemma config_file_documents_witness :
  is_Some (_legacy_config
             {| _location := "plain.ini"; _legacy_config := Some ini_sample;
                _yaml_config := PNone |})
  ∧ _yaml_config
      {| _location := "plain.ini"; _legacy_config := Some ini_sample;
         _yaml_config := PNone |} = PNone.
Proof.
  apply (config_file_documents w_files "plain.ini").
  - vm_compute. reflexivity.
  - reflexivity.
Defined.

(** C3 as stated fails: a location ending in "yaml" whose content the
    YAML loader rejects gives a ConfigFile with neither document. *)
Lemma config_file_documents_counterexample :
  endswith "bad.yaml" "yaml" = true
  ∧ ConfigFile_init w_files (AsStr "bad.yaml")
    = Ok {| _location := "bad.yaml"; _legacy_config := None; _yaml_config := PNone |}.
Proof. vm_compute. auto. Qed.

(** C4: for a location that does not end in "yaml", construction fails
    with FlyteAssertion whenever the parsed content has a section named
    "internal", whatever else the file holds; when the parsed content has no
    such section construction succeeds with that content as the legacy
    document; FlyteAssertion is raised in no other case. *)
Theorem internal_section_rejected (w : World) (location : string) :
  endswith location "yaml" = false →
  (∀ c : ConfigParser,
     ConfigParser_read w location = Ok c → is_Some (_sections c !! "internal") →
     ConfigFile_init w (AsStr location) = Raise FlyteAssertion)
  ∧ (∀ c : ConfigParser,
       ConfigParser_read w location = Ok c → _sections c !! "internal" = None →
       ConfigFile_init w (AsStr location)
       = Ok {| _location := location; _legacy_config := Some c;
               _yaml_config := PNone |})
  ∧ (ConfigFile_init w (AsStr location) = Raise FlyteAssertion →
     ∃ c, ConfigParser_read w location = Ok c ∧ is_Some (_sections c !! "internal")).
Proof.
  intros Hsuf. unfold ConfigFile_init, _read_legacy_config, has_section.
  rewrite Hsuf. split; [|split].
  - intros c -> Hint. unfold_result. by rewrite bool_decide_eq_true_2.
  - intros c -> Hint. unfold_result. rewrite bool_decide_eq_false_2; [done|].
    rewrite Hint. by intros [? ?].
  - destruct (ConfigParser_read w location) as [c|e] eqn:Hread; unfold_result.
    + case_bool_decide; [eauto|done].
    + intros [= ->]. by destruct (ConfigParser_read_raises _ _ _ Hread).
Qed.

Lemma internal_section_rejected_witness :
  ConfigFile_init w_files (AsStr "internal.ini") = Raise FlyteAssertion.
Proof.
  apply (proj1 (internal_section_rejected w_files "internal.ini" eq_refl)
           {| _sections := {[ "internal" := ∅; "platform" := {[ "url" := Text "u" ]} ]};
              _defaults := ∅ |}).
  - vm_compute. reflexivity.
  - vm_compute. eauto.
Defined.

(** ** Dispatch of [ConfigFile.get] *)

(** C9: on a ConfigFile constructed from a location that does not end in
    "yaml", [get] of any YAML descriptor raises NotImplementedError. *)
Theorem get_yaml_on_legacy_file (w : World) (location : string) (cfg : ConfigFile)
    (y : YamlConfigEntry) :
  endswith location "yaml" = false →
  ConfigFile_init w (AsStr location) = Ok cfg →
  _yaml_config cfg = PNone
  ∧ ConfigFile_get cfg (DYaml y) = Raise NotImplementedError.
Proof.
  intros Hsuf Hinit.
  destruct (init_legacy_inv _ _ _ Hsuf Hinit) as (c & _ & _ & ->). done.
Qed.

Lemma get_yaml_on_legacy_file_witness :
  _yaml_config {| _location := "plain.ini"; _legacy_config := Some ini_sample;
                  _yaml_config := PNone |} = PNone
  ∧ ConfigFile_get
      {| _location := "plain.ini"; _legacy_config := Some ini_sample;
         _yaml_config := PNone |}
      (DYaml {| switch := "admin.endpoint"; config_value_type := Tstr |})
    = Raise NotImplementedError.
Proof.
  apply (get_yaml_on_legacy_file w_files "plain.ini").
  - reflexivity.
  - vm_compute. reflexivity.
Defined.

(** ** The locator *)




(** ** Walking a YAML document *)

Lemma init_yaml_backed (w : World) (location : string) (fh : file) (doc : pyval) :
  endswith location "yaml" = true → open w location = Ok fh →
  yaml_doc fh = Some doc →
  ConfigFile_init w (AsStr location) = Ok (yaml_backed location doc).
Proof.
  intros Hsuf Hopen Hdoc. unfold ConfigFile_init, _read_yaml_config, yaml_safe_load.
  rewrite Hsuf, Hopen. unfold_result. by rewrite Hdoc.
Qed.

Lemma walk_missing_key (d : pyval) (keys : list string) :
  missing_key d keys = true → walk d keys = Raise KeyError.
Proof.
  revert d. induction keys as [|k rest IH]; intros d; simpl; [done|].
  destruct d as [| | | | |items]; try done.
  unfold getitem. destruct (dict_getitem k items) as [d'|]; [|done].
  intros Hmiss. unfold_result. by apply IH.
Qed.

Lemma yaml_read_from_file_total (y : YamlConfigEntry) (cfg : option ConfigFile)
    (t : option transformer) :
  ∃ v, YamlConfigEntry_read_from_file y cfg t = Ok v.
Proof.
  unfold YamlConfigEntry_read_from_file. destruct cfg as [c|]; [|eauto].
  destruct (_ ≫= _); eauto.
Qed.

(** C7: a YAML entry with switch "a.b.c" resolves to 42 against the
    document {a: {b: {c: 42}}} and to absent against {a: {b: {}}}; in
    general, when a key is missing along the path the walk returns absent,
    and so does the resolution, which raises nothing on any document. *)
Theorem yaml_dot_path_walk :
  (∀ (location : string) (ty : pytype),
     YamlConfigEntry_read_from_file {| switch := "a.b.c"; config_value_type := ty |}
       (Some (yaml_backed location doc_abc_42)) None = Ok (PInt 42))
  ∧ (∀ (location : string) (ty : pytype),
       YamlConfigEntry_read_from_file {| switch := "a.b.c"; config_value_type := ty |}
         (Some (yaml_backed location doc_ab_empty)) None = Ok PNone)
  ∧ (∀ (y : YamlConfigEntry) (cfg : ConfigFile) (t : option transformer),
       missing_key (_yaml_config cfg) (split "." (switch y)) = true →
       _get_from_yaml cfg y = Ok PNone
       ∧ YamlConfigEntry_read_from_file y (Some cfg) t = Ok PNone)
  ∧ (∀ (y : YamlConfigEntry) (cfg : option ConfigFile) (t : option transformer),
       ∃ v, YamlConfigEntry_read_from_file y cfg t = Ok v).
Proof.
  split; [|split; [|split]].
  - done.
  - done.
  - intros y cfg t Hmiss.
    assert (Hget : _get_from_yaml cfg y = Ok PNone).
    { unfold _get_from_yaml. by rewrite (walk_missing_key _ _ Hmiss). }
    split; [done|].
    unfold YamlConfigEntry_read_from_file, ConfigFile_get. rewrite Hget.
    by destruct (truthy (_yaml_config cfg)).
  - apply yaml_read_from_file_total.
Qed.

Lemma yaml_dot_path_walk_witness :
  _get_from_yaml (yaml_backed "config.yaml" doc_abc_42)
    {| switch := "a.x.c"; config_value_type := Tint |} = Ok PNone
  ∧ YamlConfigEntry_read_from_file {| switch := "a.x.c"; config_value_type := Tint |}
      (Some (yaml_backed "config.yaml" doc_abc_42)) None = Ok PNone.
Proof.
  apply (proj1 (proj2 (proj2 yaml_dot_path_walk))).
  vm_compute. reflexivity.
Defined.

(** ** Boolean coercion of environment values *)

Lemma ascii_lower_variant (c c' : ascii) :
  is_upper c = false → ascii_lower c' = c ↔ letter_case_variant c c' = true.
Proof.
  unfold ascii_lower, letter_case_variant, is_upper, is_lower.
  pose proof (nat_ascii_bounded c') as Hb'.
  intros Hc. rewrite orb_true_iff, andb_true_iff, Ascii.eqb_eq, Nat.eqb_eq.
  rewrite andb_true_iff, !Nat.leb_le.
  destruct (Nat.leb 65 (nat_of_ascii c') && Nat.leb (nat_of_ascii c') 90)%bool
    eqn:Hc'.
  - apply andb_true_iff in Hc' as [H1 H2]. apply Nat.leb_le in H1, H2. split.
    + intros <-. right. rewrite nat_ascii_embedding by lia. lia.
    + intros [->|[_ Heq]].
      * rewrite andb_false_iff, !Nat.leb_gt in Hc. lia.
      * rewrite Heq. apply ascii_nat_embedding.
  - split; [auto|]. intros [->|[[H1 H2] Heq]]; [done|].
    rewrite andb_false_iff, !Nat.leb_gt in Hc'. lia.
Qed.

Lemma lower_case_variant (word s : string) :
  no_capital word = true → lower s = word ↔ case_variant word s = true.
Proof.
  revert s. induction word as [|c word IH]; intros [|c' s];
    cbn [no_capital case_variant lower map_string]; try done.
  rewrite !andb_true_iff, negb_true_iff. intros [Hc Hword].
  rewrite <- (IH s Hword), <- (ascii_lower_variant c c' Hc). unfold lower.
  split; [by intros [= -> ->]|by intros [-> ->]].
Qed.

Lemma str_in_spec (s : string) (l : list string) : str_in s l = true ↔ s ∈ l.
Proof.
  unfold str_in. rewrite existsb_exists, list_elem_of_In. split.
  - intros (x & Hin & Heq). apply String.eqb_eq in Heq. by subst.
  - intros Hin. exists s. split; [done|]. apply String.eqb_refl.
Qed.

Lemma bool_transformer_str (v : string) :
  bool_transformer (PStr v)
  = Ok (PBool (negb (String.eqb v EmptyString)
               && negb (str_in (lower v) ["false"; "0"; "off"; "no"]))).
Proof. unfold bool_transformer, truthy. by destruct (_ && _)%bool. Qed.

Lemma falsy_words_no_capital (word : string) :
  word ∈ ["false"; "0"; "off"; "no"] → no_capital word = true.
Proof. rewrite !elem_of_cons, elem_of_nil. by intros [->|[->|[->|[->|[]]]]]. Qed.

(** C5: for an entry of boolean type built without a transform, which
    takes the boolean transform, [read_from_env] maps an environment value
    that spells "false", "0", "off" or "no" in any letter case to [False],
    and every other non-empty value to [True]. *)
Theorem bool_env_coercion (l : LegacyConfigEntry) (y : option YamlConfigEntry)
    (w : World) (v : string) :
  type_ l = Tbool →
  environ w !! env_name l = Some v →
  let t := transform (ConfigEntry_new l y None) in
  ((∃ word, word ∈ ["false"; "0"; "off"; "no"] ∧ case_variant word v = true) →
   LegacyConfigEntry_read_from_env l w t = Ok (PBool false))
  ∧ (v ≠ EmptyString →
     (∀ word, word ∈ ["false"; "0"; "off"; "no"] → case_variant word v = false) →
     LegacyConfigEntry_read_from_env l w t = Ok (PBool true)).
Proof.
  intros Hty Henv t. unfold t. rewrite (post_init_bool l y Hty).
  unfold LegacyConfigEntry_read_from_env. rewrite Henv. unfold apply_transform.
  rewrite bool_transformer_str. split.
  - intros (word & Hin & Hvar).
    apply (lower_case_variant word v (falsy_words_no_capital word Hin)) in Hvar.
    replace (str_in (lower v) ["false"; "0"; "off"; "no"]) with true.
    + by rewrite andb_false_r.
    + symmetry. apply str_in_spec. by rewrite Hvar.
  - intros Hne Hnone.
    replace (String.eqb v EmptyString) with false.
    + replace (str_in (lower v) ["false"; "0"; "off"; "no"]) with false; [done|].
      symmetry. apply not_true_is_false. intros Hin. apply str_in_spec in Hin.
      specialize (Hnone (lower v) Hin).
      assert (case_variant (lower v) v = true); [|congruence].
      by apply (lower_case_variant (lower v) v (falsy_words_no_capital _ Hin)).
    + symmetry. by apply String.eqb_neq.
Qed.

Lemma bool_env_coercion_witness :
  LegacyConfigEntry_read_from_env
    {| section := "platform"; option_ := "url"; type_ := Tbool |}
    (world_with "OfF")
    (transform (ConfigEntry_new {| section := "platform"; option_ := "url";
                                   type_ := Tbool |} None None))
  = Ok (PBool false).
Proof.
  apply (proj1 (bool_env_coercion
                  {| section := "platform"; option_ := "url"; type_ := Tbool |}
                  None (world_with "OfF") "OfF" eq_refl eq_refl)).
  exists "off". split; [|reflexivity].
  rewrite !elem_of_cons. auto.
Defined.

(** ** The locator and its [Path] arguments *)

(** When [flytekit.config] exists in the current directory, the locator
    hands a [Path] to the constructor, which raises AttributeError. *)
Example get_config_file_current_directory :
  get_config_file
    {| environ := ∅;
       disk := {[ "/work/flytekit.config" :=
                    {| yaml_doc := None; ini_doc := Some ini_sample |} ]};
       cwd := "/work"; home := "/home/u" |} HNone = Raise AttributeError.
Proof. vm_compute. reflexivity. Qed.

(** * Further properties *)

(** ** Splitting and joining *)

Lemma split_not_nil (sep : ascii) (s : string) : split sep s ≠ [].
Proof.
  destruct s as [|c r]; simpl; [done|].
  destruct (Ascii.eqb c sep); [done|]. by destruct (split sep r).
Qed.

Lemma join_cons_char (sep c : ascii) (h : string) (t : list string) :
  join sep (String c h :: t) = String c (join sep (h :: t)).
Proof. by destruct t. Qed.

Lemma join_split (sep : ascii) (s : string) : join sep (split sep s) = s.
Proof.
  induction s as [|c r IH]; simpl; [done|].
  destruct (Ascii.eqb c sep) eqn:Hc.
  - apply Ascii.eqb_eq in Hc as ->.
    pose proof (split_not_nil sep r) as Hne.
    destruct (split sep r) as [|h t]; [done|]. simpl in *. by rewrite IH.
  - pose proof (split_not_nil sep r) as Hne.
    destruct (split sep r) as [|h t]; [done|].
    by rewrite join_cons_char, IH.
Qed.

Lemma split_parts_no_sep (sep : ascii) (s : string) :
  Forall (λ part, has_char sep part = false) (split sep s).
Proof.
  induction s as [|c r IH]; simpl; [by repeat constructor|].
  destruct (Ascii.eqb c sep) eqn:Hc; [by constructor|].
  destruct (split sep r) as [|h t]; [by repeat constructor; simpl; rewrite Hc|].
  inversion IH as [|? ? Hh Ht]; subst. constructor; [|done]. simpl. by rewrite Hc.
Qed.

Lemma split_length (sep : ascii) (s : string) :
  length (split sep s) = S (count_char sep s).
Proof.
  induction s as [|c r IH]; simpl; [done|].
  destruct (Ascii.eqb c sep); simpl; [by rewrite IH|].
  pose proof (split_not_nil sep r). by destruct (split sep r).
Qed.

Lemma split_no_sep (sep : ascii) (s : string) :
  has_char sep s = false → split sep s = [s].
Proof.
  induction s as [|c r IH]; simpl; [done|].
  intros [Hc Hr]%orb_false_iff. rewrite Hc. by rewrite (IH Hr).
Qed.

Lemma split_app_sep (sep : ascii) (x rest : string) :
  has_char sep x = false →
  split sep (x +:+ String sep rest) = x :: split sep rest.
Proof.
  induction x as [|c r IH]; simpl.
  - intros _. by rewrite Ascii.eqb_refl.
  - intros [Hc Hr]%orb_false_iff. rewrite Hc. by rewrite (IH Hr).
Qed.

Lemma split_join (sep : ascii) (parts : list string) :
  parts ≠ [] → Forall (λ part, has_char sep part = false) parts →
  split sep (join sep parts) = parts.
Proof.
  induction parts as [|x rest IH]; [done|]. intros _ Hall.
  inversion Hall as [|? ? Hx Hrest]; subst.
  destruct rest as [|y rest'].
  - simpl. by apply split_no_sep.
  - change (join sep (x :: y :: rest')) with (x +:+ String sep (join sep (y :: rest'))).
    rewrite (split_app_sep _ _ _ Hx). by rewrite IH.
Qed.

(** ** Legacy entries of list type *)

(** X1: for a legacy entry of list type, a value found in the INI file is
    returned as the list of its comma-separated parts: joining the parts
    with commas gives back the raw value, no part holds a comma, and there
    is one part more than there are commas (so the list is never empty). *)
Theorem legacy_list_split (cfg : ConfigFile) (p : ConfigParser)
    (c : LegacyConfigEntry) (raw : string) :
  _legacy_config cfg = Some p →
  type_ c = Tlist →
  configparser.get p (section c) (option_ c) = Ok raw →
  ∃ parts : list string,
    ConfigFile_get cfg (DLegacy c) = Ok (PList (PStr <$> parts))
    ∧ LegacyConfigEntry_read_from_file c (Some cfg) None = Ok (PList (PStr <$> parts))
    ∧ join "," parts = raw
    ∧ Forall (λ part, has_char "," part = false) parts
    ∧ length parts = S (count_char "," raw).
Proof.
  intros Hp Hty Hget. exists (split "," raw).
  assert (Hcfg : ConfigFile_get cfg (DLegacy c) = Ok (PList (PStr <$> split "," raw))).
  { unfold ConfigFile_get, _get_from_legacy, legacy_parser.
    rewrite Hty, Hp. simpl. unfold_result. by rewrite Hget. }
  split; [done|]. split.
  - unfold LegacyConfigEntry_read_from_file. by rewrite Hcfg.
  - split; [apply join_split|]. split; [apply split_parts_no_sep|apply split_length].
Qed.

Lemma legacy_list_split_witness :
  ∃ parts : list string,
    ConfigFile_get cfg_ini
      (DLegacy {| section := "platform"; option_ := "tags"; type_ := Tlist |})
    = Ok (PList (PStr <$> parts))
    ∧ LegacyConfigEntry_read_from_file
        {| section := "platform"; option_ := "tags"; type_ := Tlist |}
        (Some cfg_ini) None = Ok (PList (PStr <$> parts))
    ∧ join "," parts = "x,y,z"
    ∧ Forall (λ part, has_char "," part = false) parts
    ∧ length parts = S (count_char "," "x,y,z").
Proof.
  apply (legacy_list_split cfg_ini ini_sample
           {| section := "platform"; option_ := "tags"; type_ := Tlist |} "x,y,z").
  - reflexivity.
  - reflexivity.
  - vm_compute. reflexivity.
Defined.

(** ** YAML paths that are present *)

Lemma dict_getitem_single (k : string) (v : pyval) :
  dict_getitem k [(PStr k, v)] = Some v.
Proof. simpl. by rewrite String.eqb_refl. Qed.

Lemma walk_nest (keys : list string) (v : pyval) : walk (nest keys v) keys = Ok v.
Proof.
  induction keys as [|k rest IH]; [done|].
  cbn [nest walk getitem]. rewrite dict_getitem_single. by unfold_result.
Qed.

(** X2: a YAML entry whose switch is the dot-joined path [k1.k2...kn]
    (no key holding a dot) resolves, against the document that nests a true
    value [v] under exactly that path, to [v] itself when there is no
    transform. *)
Theorem yaml_nested_value_found (keys : list string) (v : pyval)
    (location : string) (ty : pytype) :
  keys ≠ [] →
  Forall (λ k, has_char "." k = false) keys →
  truthy v = true →
  let y := {| switch := join "." keys; config_value_type := ty |} in
  let cfg := yaml_backed location (nest keys v) in
  ConfigFile_get cfg (DYaml y) = Ok v
  ∧ YamlConfigEntry_read_from_file y (Some cfg) None = Ok v.
Proof.
  intros Hne Hkeys Hv y cfg.
  assert (Hget : ConfigFile_get cfg (DYaml y) = Ok v).
  { unfold ConfigFile_get, _get_from_yaml, cfg, y. simpl.
    destruct keys as [|k rest]; [done|]. cbn [nest truthy].
    change (PDict [(PStr k, nest rest v)]) with (nest (k :: rest) v).
    by rewrite (split_join "." (k :: rest) Hne Hkeys), walk_nest. }
  split; [done|].
  unfold YamlConfigEntry_read_from_file. rewrite Hget. unfold_result.
  by rewrite Hv.
Qed.

Lemma yaml_nested_value_found_witness :
  ConfigFile_get (yaml_backed "config.yaml" (nest ["admin"; "endpoint"] (PStr "dns:///flyte")))
    (DYaml {| switch := join "." ["admin"; "endpoint"]; config_value_type := Tstr |})
  = Ok (PStr "dns:///flyte")
  ∧ YamlConfigEntry_read_from_file
      {| switch := join "." ["admin"; "endpoint"]; config_value_type := Tstr |}
      (Some (yaml_backed "config.yaml" (nest ["admin"; "endpoint"] (PStr "dns:///flyte"))))
      None
    = Ok (PStr "dns:///flyte").
Proof.
  apply (yaml_nested_value_found ["admin"; "endpoint"] (PStr "dns:///flyte")
           "config.yaml" Tstr).
  - discriminate.
  - repeat constructor.
  - reflexivity.
Defined.

(** ** Reading when the environment variable is unset *)

Lemma read_env_unset_legacy (self : ConfigEntry) (w : World) (cfg : ConfigFile)
    (p : ConfigParser) :
  environ w !! env_name (legacy self) = None →
  _legacy_config cfg = Some p →
  ConfigEntry_read self w (Some cfg)
  = LegacyConfigEntry_read_from_file (legacy self) (Some cfg) (transform self).
Proof.
  intros Henv Hp. unfold ConfigEntry_read, LegacyConfigEntry_read_from_env.
  rewrite Henv. unfold_result. simpl. by rewrite Hp.
Qed.

(** ** Boolean entries in the INI file *)

Lemma lower_empty (v : string) : lower v = EmptyString → v = EmptyString.
Proof. by destruct v. Qed.

Lemma boolean_states_inv (lv : string) (b : bool) :
  assoc lv BOOLEAN_STATES = Some b →
  (lv, b) ∈ BOOLEAN_STATES
  ∧ lv ≠ EmptyString
  ∧ str_in lv ["false"; "0"; "off"; "no"] = negb b.
Proof.
  unfold BOOLEAN_STATES. cbn [assoc].
  repeat (match goal with
          | |- context [String.eqb ?word lv] =>
              destruct (String.eqb_spec word lv) as [<-|_]
          end;
          [intros [= <-]; split;
           [rewrite !elem_of_cons; naive_solver|split; [discriminate|reflexivity]]|]).
  done.
Qed.

Lemma boolean_states_complete (word : string) (b : bool) :
  (word, b) ∈ BOOLEAN_STATES → assoc word BOOLEAN_STATES = Some b ∧ no_capital word = true.
Proof.
  unfold BOOLEAN_STATES. rewrite !elem_of_cons, elem_of_nil.
  intros H. by repeat (destruct H as [[= -> ->]|H]; [done|]).
Qed.

Lemma convert_to_boolean_spec (v : string) (b : bool) :
  _convert_to_boolean v = Ok b
  ↔ ∃ word, (word, b) ∈ BOOLEAN_STATES ∧ case_variant word v = true.
Proof.
  unfold _convert_to_boolean. split.
  - destruct (assoc (lower v) BOOLEAN_STATES) as [b'|] eqn:Hassoc; [|done].
    intros [= ->]. destruct (boolean_states_inv _ _ Hassoc) as (Hin & _ & _).
    exists (lower v). split; [done|].
    apply lower_case_variant; [|done].
    by apply (boolean_states_complete _ _ Hin).
  - intros (word & Hin & Hvar).
    destruct (boolean_states_complete _ _ Hin) as [Hassoc Hcap].
    apply (lower_case_variant word v Hcap) in Hvar. by rewrite Hvar, Hassoc.
Qed.

Lemma get_from_legacy_bool (cfg : ConfigFile) (p : ConfigParser)
    (c : LegacyConfigEntry) (v : string) :
  _legacy_config cfg = Some p → type_ c = Tbool →
  configparser.get p (section c) (option_ c) = Ok v →
  ConfigFile_get cfg (DLegacy c) = PBool <$> _convert_to_boolean v.
Proof.
  intros Hp Hty Hget. unfold ConfigFile_get, _get_from_legacy, legacy_parser, getboolean.
  rewrite Hty, Hp. simpl. unfold_result. by rewrite Hget.
Qed.

Lemma legacy_bool_read (l : LegacyConfigEntry) (y : option YamlConfigEntry)
    (w : World) (cfg : ConfigFile) (p : ConfigParser) (v : string) :
  type_ l = Tbool →
  environ w !! env_name l = None →
  _legacy_config cfg = Some p →
  configparser.get p (section l) (option_ l) = Ok v →
  ConfigEntry_read (ConfigEntry_new l y None) w (Some cfg)
  = PBool <$> _convert_to_boolean v.
Proof.
  intros Hty Henv Hp Hget.
  rewrite (read_env_unset_legacy _ w cfg p); [|by rewrite post_init_legacy|done].
  rewrite post_init_legacy, (post_init_bool l y Hty).
  unfold LegacyConfigEntry_read_from_file.
  rewrite (get_from_legacy_bool cfg p l v Hp Hty Hget). unfold_result.
  unfold _convert_to_boolean. by destruct (assoc (lower v) BOOLEAN_STATES).
Qed.

(** X3: for an entry of boolean type built without a transform, with its
    environment variable unset, [read] against an INI file that holds the
    value [v] gives [True] when [v] spells "1", "yes", "true" or "on" in any
    letter case, [False] when it spells "0", "no", "false" or "off", and
    raises ValueError for every other value. *)
Theorem legacy_bool_from_file (l : LegacyConfigEntry) (y : option YamlConfigEntry)
    (w : World) (cfg : ConfigFile) (p : ConfigParser) (v : string) :
  type_ l = Tbool →
  environ w !! env_name l = None →
  _legacy_config cfg = Some p →
  configparser.get p (section l) (option_ l) = Ok v →
  let e := ConfigEntry_new l y None in
  (∀ b : bool,
     (∃ word, (word, b) ∈ [("1", true); ("yes", true); ("true", true); ("on", true);
                           ("0", false); ("no", false); ("false", false); ("off", false)]
              ∧ case_variant word v = true) →
     ConfigEntry_read e w (Some cfg) = Ok (PBool b))
  ∧ ((∀ word b, (word, b) ∈ [("1", true); ("yes", true); ("true", true); ("on", true);
                             ("0", false); ("no", false); ("false", false); ("off", false)] →
                case_variant word v = false) →
     ConfigEntry_read e w (Some cfg) = Raise ValueError).
Proof.
  intros Hty Henv Hp Hget e. unfold e.
  rewrite (legacy_bool_read l y w cfg p v Hty Henv Hp Hget). split.
  - intros b Hword. apply convert_to_boolean_spec in Hword. by rewrite Hword.
  - intros Hnone. unfold _convert_to_boolean.
    destruct (assoc (lower v) BOOLEAN_STATES) as [b|] eqn:Hassoc; [|done].
    assert (Hconv : _convert_to_boolean v = Ok b).
    { unfold _convert_to_boolean. by rewrite Hassoc. }
    apply convert_to_boolean_spec in Hconv as (word & Hin & Hvar).
    by rewrite (Hnone word b Hin) in Hvar.
Qed.

Lemma legacy_bool_from_file_witness :
  ConfigEntry_read
    (ConfigEntry_new {| section := "platform"; option_ := "insecure"; type_ := Tbool |}
       None None)
    world_unset (Some (cfg_with "platform" "insecure" "Yes"))
  = Ok (PBool true).
Proof.
  refine (proj1 (legacy_bool_from_file
                   {| section := "platform"; option_ := "insecure"; type_ := Tbool |}
                   None world_unset (cfg_with "platform" "insecure" "Yes")
                   (ini_with "platform" "insecure" "Yes") "Yes" eq_refl _ eq_refl _)
            true _).
  - vm_compute. reflexivity.
  - vm_compute. reflexivity.
  - exists "yes". split; [|reflexivity]. rewrite !elem_of_cons. auto.
Defined.

(** X4: a boolean text that the INI file accepts reads the same from the
    environment: for an entry of boolean type built without a transform, if
    [read] gets [v] from the file (variable unset) where the parser's boolean
    conversion of [v] is [b], then [read] with the variable set to [v] also
    gives [b], whatever file is passed. *)
Theorem bool_env_file_agree (l : LegacyConfigEntry) (y : option YamlConfigEntry)
    (w w' : World) (cfg : ConfigFile) (p : ConfigParser) (v : string) (b : bool) :
  type_ l = Tbool →
  _legacy_config cfg = Some p →
  configparser.get p (section l) (option_ l) = Ok v →
  _convert_to_boolean v = Ok b →
  environ w !! env_name l = None →
  environ w' !! env_name l = Some v →
  let e := ConfigEntry_new l y None in
  ConfigEntry_read e w (Some cfg) = Ok (PBool b)
  ∧ ∀ cfg' : option ConfigFile, ConfigEntry_read e w' cfg' = Ok (PBool b).
Proof.
  intros Hty Hp Hget Hconv Henv Henv' e. split.
  - unfold e. by rewrite (legacy_bool_read l y w cfg p v Hty Henv Hp Hget), Hconv.
  - intros cfg'. unfold e, ConfigEntry_read, LegacyConfigEntry_read_from_env.
    rewrite post_init_legacy, (post_init_bool l y Hty), Henv'.
    unfold apply_transform. rewrite bool_transformer_str.
    unfold _convert_to_boolean in Hconv.
    destruct (assoc (lower v) BOOLEAN_STATES) as [b'|] eqn:Hassoc; [|done].
    injection Hconv as ->.
    destruct (boolean_states_inv _ _ Hassoc) as (_ & Hne & Hin).
    rewrite Hin. replace (String.eqb v EmptyString) with false.
    + unfold_result. by destruct b.
    + symmetry. apply String.eqb_neq. intros ->. by apply Hne.
Qed.

Lemma bool_env_file_agree_witness :
  ConfigEntry_read
    (ConfigEntry_new {| section := "platform"; option_ := "url"; type_ := Tbool |}
       None None)
    world_unset (Some (cfg_with "platform" "url" "NO"))
  = Ok (PBool false)
  ∧ ∀ cfg' : option ConfigFile,
      ConfigEntry_read
        (ConfigEntry_new {| section := "platform"; option_ := "url"; type_ := Tbool |}
           None None)
        (world_with "NO") cfg' = Ok (PBool false).
Proof.
  apply (bool_env_file_agree
           {| section := "platform"; option_ := "url"; type_ := Tbool |} None
           world_unset (world_with "NO") (cfg_with "platform" "url" "NO")
           (ini_with "platform" "url" "NO") "NO" false).
  all: vm_compute; reflexivity.
Defined.

(** ** YAML values that are false, and the errors of the YAML lookup *)

(** X5: when the path of a YAML entry leads to a value that is false in
    Python (None, False, 0, an empty string, list or mapping), [get] returns
    that value but [read_from_file] returns absent, whatever transform is
    given: a present false value cannot be told from a missing key. *)
Theorem yaml_false_value_absent (y : YamlConfigEntry) (cfg : ConfigFile)
    (t : option transformer) (v : pyval) :
  truthy (_yaml_config cfg) = true →
  walk (_yaml_config cfg) (split "." (switch y)) = Ok v →
  truthy v = false →
  ConfigFile_get cfg (DYaml y) = Ok v
  ∧ YamlConfigEntry_read_from_file y (Some cfg) t = Ok PNone.
Proof.
  intros Hdoc Hwalk Hv.
  assert (Hget : ConfigFile_get cfg (DYaml y) = Ok v).
  { unfold ConfigFile_get, _get_from_yaml. by rewrite Hdoc, Hwalk. }
  split; [done|].
  unfold YamlConfigEntry_read_from_file. rewrite Hget. unfold_result. by rewrite Hv.
Qed.

Lemma yaml_false_value_absent_witness :
  ConfigFile_get (yaml_backed "config.yaml" (nest ["admin"; "insecure"] (PBool false)))
    (DYaml {| switch := "admin.insecure"; config_value_type := Tbool |})
  = Ok (PBool false)
  ∧ YamlConfigEntry_read_from_file
      {| switch := "admin.insecure"; config_value_type := Tbool |}
      (Some (yaml_backed "config.yaml" (nest ["admin"; "insecure"] (PBool false))))
      (Some bool_transformer)
    = Ok PNone.
Proof.
  apply (yaml_false_value_absent
           {| switch := "admin.insecure"; config_value_type := Tbool |}
           (yaml_backed "config.yaml" (nest ["admin"; "insecure"] (PBool false)))
           (Some bool_transformer) (PBool false)).
  all: reflexivity.
Defined.

Lemma walk_raises (d : pyval) (keys : list string) (e : exn) :
  walk d keys = Raise e → e = KeyError ∨ e = TypeError.
Proof.
  revert d. induction keys as [|k rest IH]; intros d; simpl; [done|].
  unfold getitem. destruct d as [| | | | |items]; unfold_result;
    try (intros [= <-]; by right).
  destruct (dict_getitem k items) as [d'|]; [apply IH|].
  intros [= <-]. by left.
Qed.

Lemma walk_type_error (d : pyval) (keys : list string) :
  walk d keys = Raise TypeError ↔ hits_non_mapping d keys = true.
Proof.
  revert d. induction keys as [|k rest IH]; intros d; simpl; [done|].
  unfold getitem. destruct d as [| | | | |items]; unfold_result; try done.
  destruct (dict_getitem k items) as [d'|]; [apply IH|done].
Qed.

(** X6: [ConfigFile.get] of a YAML descriptor never raises KeyError.  It
    raises NotImplementedError exactly when the YAML document is absent or
    empty; with a document, it raises TypeError exactly when the path goes
    through a value that is not a mapping, and nothing else. *)
Theorem get_yaml_errors (cfg : ConfigFile) (y : YamlConfigEntry) :
  (truthy (_yaml_config cfg) = false →
   ConfigFile_get cfg (DYaml y) = Raise NotImplementedError)
  ∧ (truthy (_yaml_config cfg) = true →
     hits_non_mapping (_yaml_config cfg) (split "." (switch y)) = true →
     ConfigFile_get cfg (DYaml y) = Raise TypeError)
  ∧ (∀ e : exn,
       ConfigFile_get cfg (DYaml y) = Raise e →
       (e = NotImplementedError ∧ truthy (_yaml_config cfg) = false)
       ∨ (e = TypeError ∧ truthy (_yaml_config cfg) = true
          ∧ hits_non_mapping (_yaml_config cfg) (split "." (switch y)) = true)).
Proof.
  unfold ConfigFile_get, _get_from_yaml. split; [|split].
  - by intros ->.
  - intros -> Hhit. apply walk_type_error in Hhit. by rewrite Hhit.
  - intros e. destruct (truthy (_yaml_config cfg)); [|intros [= <-]; by left].
    destruct (walk _ _) as [v|e'] eqn:Hwalk; [done|].
    destruct (walk_raises _ _ _ Hwalk) as [->| ->]; [done|].
    intros [= <-]. right. by apply walk_type_error in Hwalk.
Qed.

Lemma get_yaml_errors_witness :
  ConfigFile_get (yaml_backed "config.yaml" doc_abc_42)
    (DYaml {| switch := "a.b.c.d"; config_value_type := Tstr |})
  = Raise TypeError.
Proof.
  apply (proj1 (proj2 (get_yaml_errors (yaml_backed "config.yaml" doc_abc_42)
                         {| switch := "a.b.c.d"; config_value_type := Tstr |}))).
  - reflexivity.
  - reflexivity.
Defined.

(** ** What [read] can raise when the variable is unset *)

Lemma legacy_read_no_cp_error (l : LegacyConfigEntry) (cfg : option ConfigFile)
    (t : option transformer) (e : cp_error) :
  LegacyConfigEntry_read_from_file l cfg t ≠ Raise (ConfigparserError e).
Proof.
  unfold LegacyConfigEntry_read_from_file. destruct cfg as [c|]; [|done].
  destruct (ConfigFile_get c (DLegacy l)) as [v|e']; unfold_result.
  - destruct (apply_transform t v) as [v'|e'']; [done|]. by destruct e''.
  - by destruct e'.
Qed.

(** X7: with the entry's environment variable unset, [read] never raises
    a [configparser.Error]; and when the config file is missing or holds no
    legacy document, [read] raises nothing at all. *)
Theorem read_env_unset_errors (self : ConfigEntry) (w : World)
    (cfg : option ConfigFile) :
  environ w !! env_name (legacy self) = None →
  (∀ e : cp_error, ConfigEntry_read self w cfg ≠ Raise (ConfigparserError e))
  ∧ ((∀ c, cfg = Some c → _legacy_config c = None) →
     ∃ v, ConfigEntry_read self w cfg = Ok v).
Proof.
  intros Henv. unfold ConfigEntry_read, LegacyConfigEntry_read_from_env.
  rewrite Henv. unfold_result. simpl. split.
  - intros e. destruct (has_legacy_config cfg); [apply legacy_read_no_cp_error|].
    destruct (has_yaml_config cfg (yaml_entry self)); [|done].
    destruct (yaml_entry self) as [y|]; [|done].
    destruct (yaml_read_from_file_total y cfg (transform self)) as [v ->]. done.
  - intros Hnolegacy.
    replace (has_legacy_config cfg) with false.
    + destruct (has_yaml_config cfg (yaml_entry self)) eqn:Hy; [|eauto].
      destruct (yaml_entry self) as [y|]; [apply yaml_read_from_file_total|].
      destruct cfg as [c|]; [|done]. simpl in Hy.
      by rewrite andb_false_r in Hy.
    + destruct cfg as [c|]; [|done]. simpl. by rewrite (Hnolegacy c eq_refl).
Qed.

Lemma read_env_unset_errors_witness :
  (∀ e : cp_error,
     ConfigEntry_read
       (ConfigEntry_new platform_url
          (Some {| switch := "a.b.c.d"; config_value_type := Tstr |}) None)
       world_unset (Some (yaml_backed "config.yaml" doc_abc_42))
     ≠ Raise (ConfigparserError e))
  ∧ ((∀ c, Some (yaml_backed "config.yaml" doc_abc_42) = Some c →
           _legacy_config c = None) →
     ∃ v, ConfigEntry_read
            (ConfigEntry_new platform_url
               (Some {| switch := "a.b.c.d"; config_value_type := Tstr |}) None)
            world_unset (Some (yaml_backed "config.yaml" doc_abc_42)) = Ok v).
Proof.
  apply (read_env_unset_errors
           (ConfigEntry_new platform_url
              (Some {| switch := "a.b.c.d"; config_value_type := Tstr |}) None)
           world_unset (Some (yaml_backed "config.yaml" doc_abc_42))).
  vm_compute. reflexivity.
Defined.

(** X8: with the environment variable unset, the YAML entry matters only
    for a file without a legacy document: against no file or a legacy-backed
    file, [read] gives the same result whatever YAML entry the ConfigEntry
    holds, and an entry without a YAML entry reads as absent against a
    YAML-backed file. *)
Theorem yaml_entry_relevance (l : LegacyConfigEntry) (t : option transformer)
    (w : World) :
  environ w !! env_name l = None →
  (∀ (y1 y2 : option YamlConfigEntry) (cfg : option ConfigFile),
     (∀ c, cfg = Some c → is_Some (_legacy_config c)) →
     ConfigEntry_read {| legacy := l; yaml_entry := y1; transform := t |} w cfg
     = ConfigEntry_read {| legacy := l; yaml_entry := y2; transform := t |} w cfg)
  ∧ (∀ c : ConfigFile,
       _legacy_config c = None →
       ConfigEntry_read {| legacy := l; yaml_entry := None; transform := t |} w (Some c)
       = Ok PNone).
Proof.
  intros Henv. split.
  - intros y1 y2 cfg Hlegacy. unfold ConfigEntry_read, LegacyConfigEntry_read_from_env.
    simpl. rewrite Henv. unfold_result. simpl.
    destruct cfg as [c|]; simpl; [|done].
    destruct (Hlegacy c eq_refl) as [p Hp]. by rewrite Hp.
  - intros c Hc. unfold ConfigEntry_read, LegacyConfigEntry_read_from_env.
    simpl. rewrite Henv. unfold_result. simpl. rewrite Hc.
    by rewrite andb_false_r.
Qed.

Lemma yaml_entry_relevance_witness :
  ConfigEntry_read {| legacy := platform_url; yaml_entry := None; transform := None |}
    world_unset (Some (yaml_backed "config.yaml" doc_abc_42)) = Ok PNone.
Proof.
  apply (proj2 (yaml_entry_relevance platform_url None world_unset eq_refl)).
  reflexivity.
Defined.

(** ** Letter case of section and option names *)

Lemma ascii_upper_lower (c : ascii) : ascii_upper (ascii_lower c) = ascii_upper c.
Proof. by destruct c as [[] [] [] [] [] [] [] []]. Qed.

Lemma upper_lower (s : string) : upper (lower s) = upper s.
Proof.
  induction s as [|c r IH]; [done|]. unfold upper, lower in *. simpl.
  by rewrite ascii_upper_lower, IH.
Qed.

Lemma lower_eq_upper_eq (s s' : string) : lower s = lower s' → upper s = upper s'.
Proof. intros H. by rewrite <- (upper_lower s), <- (upper_lower s'), H. Qed.

Lemma get_from_legacy_option_case (cfg : ConfigFile) (l l' : LegacyConfigEntry) :
  section l = section l' → lower (option_ l) = lower (option_ l') →
  type_ l = type_ l' →
  ConfigFile_get cfg (DLegacy l) = ConfigFile_get cfg (DLegacy l').
Proof.
  intros Hs Ho Hty. unfold ConfigFile_get, _get_from_legacy, getboolean, getint.
  unfold configparser.get. by rewrite Hs, Ho, Hty.
Qed.

(** X9: option names of ASCII characters are case-insensitive everywhere:
    two legacy entries with the same section and type whose ASCII options
    differ only in letter case name the same environment variable and read
    the same value from every environment and every config file. *)
Theorem option_case_insensitive (l l' : LegacyConfigEntry)
    (y : option YamlConfigEntry) (t : option transformer) :
  is_ascii (option_ l) = true →
  is_ascii (option_ l') = true →
  section l = section l' →
  lower (option_ l) = lower (option_ l') →
  type_ l = type_ l' →
  env_name l = env_name l'
  ∧ ∀ (w : World) (cfg : option ConfigFile),
      ConfigEntry_read (ConfigEntry_new l y t) w cfg
      = ConfigEntry_read (ConfigEntry_new l' y t) w cfg.
Proof.
  intros _ _ Hs Ho Hty.
  assert (Hname : env_name l = env_name l').
  { unfold env_name. by rewrite Hs, (lower_eq_upper_eq _ _ Ho). }
  split; [done|]. intros w cfg.
  assert (Htr : transform (ConfigEntry_new l y t) = transform (ConfigEntry_new l' y t)).
  { unfold ConfigEntry_new, __post_init__. simpl. rewrite Hty.
    destruct t; [done|]. by destruct (legacy_default_transforms (type_ l')). }
  assert (Hy : ∀ l0, yaml_entry (ConfigEntry_new l0 y t) = y).
  { intros l0. unfold ConfigEntry_new, __post_init__. simpl.
    destruct t; [done|]. by destruct (legacy_default_transforms (type_ l0)). }
  unfold ConfigEntry_read, LegacyConfigEntry_read_from_env.
  rewrite !post_init_legacy, !Hy, Htr, Hname.
  unfold LegacyConfigEntry_read_from_file.
  destruct cfg as [c|]; [|done].
  by rewrite (get_from_legacy_option_case c l l' Hs Ho Hty).
Qed.

Lemma option_case_insensitive_witness :
  env_name {| section := "platform"; option_ := "URL"; type_ := Tstr |}
  = env_name platform_url
  ∧ ∀ (w : World) (cfg : option ConfigFile),
      ConfigEntry_read
        (ConfigEntry_new {| section := "platform"; option_ := "URL"; type_ := Tstr |}
           None None) w cfg
      = ConfigEntry_read (ConfigEntry_new platform_url None None) w cfg.
Proof.
  apply (option_case_insensitive
           {| section := "platform"; option_ := "URL"; type_ := Tstr |}
           platform_url None None).
  all: reflexivity.
Defined.

(** ** Files that do not exist *)

Lemma get_empty_parser (s o : string) :
  ∃ e, configparser.get configparser.empty s o = Raise (ConfigparserError e).
Proof.
  unfold configparser.get, _unify_values, configparser.empty. simpl.
  rewrite lookup_empty. case_bool_decide; unfold_result; [|eauto].
  rewrite lookup_empty. eauto.
Qed.

(** X10: a location that [open] cannot open.  [open] fails only with
    ValueError (a NUL character in the name) or with an OSError (no such
    file, a file where a directory is needed, a directory, a name too long).
    When the location ends in "yaml" the constructor raises that error;
    otherwise an OSError is skipped and construction succeeds with an empty
    legacy document, against which every legacy entry reads as absent, while
    ValueError is raised. *)
Theorem config_file_missing (w : World) (location : string) (e : exn) :
  open w location = Raise e →
  (e = ValueError ∨ is_OSError e = true)
  ∧ (endswith location "yaml" = true →
     ConfigFile_init w (AsStr location) = Raise e)
  ∧ (endswith location "yaml" = false → is_OSError e = true →
     ConfigFile_init w (AsStr location)
     = Ok {| _location := location; _legacy_config := Some configparser.empty;
             _yaml_config := PNone |}
     ∧ ∀ (l : LegacyConfigEntry) (t : option transformer),
         LegacyConfigEntry_read_from_file l
           (Some {| _location := location; _legacy_config := Some configparser.empty;
                    _yaml_config := PNone |}) t = Ok PNone)
  ∧ (endswith location "yaml" = false → is_OSError e = false →
     ConfigFile_init w (AsStr location) = Raise e).
Proof.
  intros Hopen. split; [by apply (open_raises w location)|]. split; [|split].
  - intros Hsuf. unfold ConfigFile_init, _read_yaml_config.
    by rewrite Hsuf, Hopen.
  - intros Hsuf Hos. split.
    + unfold ConfigFile_init, _read_legacy_config, ConfigParser_read.
      by rewrite Hsuf, Hopen, Hos.
    + intros l t. destruct (get_empty_parser (section l) (option_ l)) as [e' He'].
      by apply (legacy_missing_is_absent _ configparser.empty l t e').
  - intros Hsuf Hos. unfold ConfigFile_init, _read_legacy_config, ConfigParser_read.
    by rewrite Hsuf, Hopen, Hos.
Qed.

Lemma config_file_missing_witness :
  ConfigFile_init w_files (AsStr "plain.ini/x.yaml") = Raise NotADirectoryError.
Proof.
  apply (proj1 (proj2 (config_file_missing w_files "plain.ini/x.yaml"
                         NotADirectoryError eq_refl))).
  reflexivity.
Defined.

(** ** The locator: which candidate is loaded *)

Lemma endswith_app (a s suffix : string) :
  endswith s suffix = true → endswith (a +:+ s) suffix = true.
Proof.
  intros Hs. induction a as [|c a IH]; [done|].
  unfold endswith in *.
  change (String c a +:+ s) with (String c (a +:+ s)). cbn [String.length].
  apply andb_true_iff in IH as [Hle Heq]. apply Nat.leb_le in Hle.
  apply andb_true_iff. split; [apply Nat.leb_le; lia|].
  rewrite Nat.sub_succ_l by done. done.
Qed.

Lemma string_app_assoc (a b c : string) : (a +:+ b) +:+ c = a +:+ (b +:+ c).
Proof.
  induction a as [|x a IH]; [done|].
  change (String x ((a +:+ b) +:+ c) = String x (a +:+ (b +:+ c))). by rewrite IH.
Qed.

Lemma join_snoc (sep : ascii) (l : list string) (c : string) :
  ∃ pre, join sep (l ++ [c]) = pre +:+ c.
Proof.
  induction l as [|x l [pre IH]]; [by exists EmptyString|].
  destruct l as [|y l'].
  - exists (x +:+ String sep EmptyString). simpl.
    by rewrite string_app_assoc.
  - exists (x +:+ String sep pre).
    change (join sep ((x :: y :: l') ++ [c]))
      with (x +:+ String sep (join sep ((y :: l') ++ [c]))).
    rewrite IH. by rewrite string_app_assoc.
Qed.

Lemma endswith_render (root : string) (l : list string) (c suffix : string) :
  endswith c suffix = true → endswith (render root (l ++ [c])) suffix = true.
Proof.
  intros Hc. unfold render. destruct (join_snoc "/" l c) as [pre Hpre].
  destruct (l ++ [c])%list as [|x rest] eqn:Hl; [by destruct l|].
  rewrite Hpre, <- string_app_assoc. by apply endswith_app.
Qed.

Lemma path_parts_valid (p : string) : Forall valid_part (path_parts p).
Proof.
  unfold path_parts. pose proof (split_parts_no_sep "/" p) as Hall.
  induction Hall as [|c l Hc Hl IH]; simpl; [constructor|].
  destruct (negb _) eqn:Hkeep; [|done]. by constructor.
Qed.

Lemma filter_valid (l : list string) :
  Forall valid_part l →
  List.filter (λ c, negb (String.eqb c EmptyString || String.eqb c ".")) l = l.
Proof.
  induction 1 as [|c l [Hc _] Hl IH]; simpl; [done|]. by rewrite Hc, IH.
Qed.

Lemma path_root_cases (p : string) :
  path_root p = EmptyString ∨ path_root p = "/" ∨ path_root p = "//".
Proof.
  unfold path_root. destruct p as [|a0 [|a1 [|a2 p']]]; repeat case_match; auto.
Qed.

Lemma split_slash_cons (s : string) :
  split "/" (String "/" s) = EmptyString :: split "/" s.
Proof. reflexivity. Qed.

Lemma path_parts_render (p : string) (parts : list string) :
  parts ≠ [] → Forall valid_part parts →
  path_parts (render (path_root p) parts) = parts.
Proof.
  intros Hne Hall. unfold render. destruct parts as [|x rest] eqn:Hparts; [done|].
  rewrite <- Hparts in *. clear Hparts.
  assert (Hsplit : split "/" (join "/" parts) = parts).
  { apply split_join; [done|]. eapply Forall_impl; [exact Hall|]. by intros c [_ ?]. }
  unfold path_parts.
  destruct (path_root_cases p) as [->|[->| ->]].
  - change (EmptyString +:+ join "/" parts) with (join "/" parts).
    by rewrite Hsplit, filter_valid.
  - change ("/" +:+ join "/" parts) with (String "/" (join "/" parts)).
    rewrite split_slash_cons, Hsplit. cbn [List.filter String.eqb orb negb].
    by rewrite filter_valid.
  - change ("//" +:+ join "/" parts) with (String "/" (String "/" (join "/" parts))).
    rewrite !split_slash_cons, Hsplit. cbn [List.filter String.eqb orb negb].
    by rewrite filter_valid.
Qed.

Lemma endswith_absolute_joinpath (w : World) (a c suffix : string) :
  valid_part c → path_parts c = [c] → startswith_slash c = false →
  endswith c suffix = true →
  endswith (absolute w (joinpath a c)) suffix = true.
Proof.
  intros Hvalid Hparts Hrel Hc.
  assert (Hjoin : joinpath a c = render (path_root a) (path_parts a ++ [c])).
  { unfold joinpath. by rewrite Hrel, Hparts. }
  assert (Hp : path_parts (joinpath a c) = (path_parts a ++ [c])%list).
  { rewrite Hjoin. apply path_parts_render; [by destruct (path_parts a)|].
    apply Forall_app. split; [apply path_parts_valid|by constructor]. }
  unfold absolute. destruct (startswith_slash (joinpath a c)) eqn:Habs.
  - unfold normalize. rewrite Hp. by apply endswith_render.
  - unfold joinpath at 1. rewrite Habs, Hp, app_assoc. by apply endswith_render.
Qed.

Lemma fmap_Some_inv (r : result ConfigFile) (cfg : ConfigFile) :
  Some <$> r = Ok (Some cfg) → r = Ok cfg.
Proof. destruct r; unfold_result; congruence. Qed.



(** X12: with no hint, a ConfigFile that [get_config_file] returns was
    constructed from the absolute path of one of the last two candidates, in
    this order: the path that FLYTECTL_CONFIG names, when that is not empty
    and exists; otherwise [.flyte/config.yaml] in the home directory, and
    then the file holds no legacy document.  The first two candidates do not
    exist in that case. *)
Theorem locator_loaded_candidate (w : World) (cfg : ConfigFile) :
  get_config_file w HNone = Ok (Some cfg) →
  exists_ w "flytekit.config" = false
  ∧ exists_ w (joinpath (joinpath (home w) ".flyte") "config") = false
  ∧ ((∃ p, environ w !! "FLYTECTL_CONFIG" = Some p ∧ p ≠ EmptyString
           ∧ exists_ w p = true
           ∧ ConfigFile_init w (AsStr (absolute w p)) = Ok cfg)
     ∨ ((∀ p, environ w !! "FLYTECTL_CONFIG" = Some p →
              p = EmptyString ∨ exists_ w p = false)
        ∧ exists_ w (joinpath (joinpath (home w) ".flyte") "config.yaml") = true
        ∧ ConfigFile_init w
            (AsStr (absolute w (joinpath (joinpath (home w) ".flyte") "config.yaml")))
          = Ok cfg
        ∧ _legacy_config cfg = None)).
Proof.
  unfold get_config_file, FLYTECTL_CONFIG_ENV_VAR. intros Hres.
  destruct (Path_exists w "flytekit.config") as [[|]|e1] eqn:H1; [done| |done].
  apply Path_exists_inv in H1.
  destruct (Path_exists w (joinpath (joinpath (home w) ".flyte") "config"))
    as [[|]|e2] eqn:H2; [done| |done].
  apply Path_exists_inv in H2. cbn beta iota zeta delta [mbind result_bind Py.bind] in Hres.
  split; [done|]. split; [done|].
  set (yaml_home := joinpath (joinpath (home w) ".flyte") "config.yaml") in *.
  assert (Hlast :
    (found ← Path_exists w yaml_home;
     if found : bool
     then Some <$> ConfigFile_init w (AsStr (absolute w yaml_home))
     else Ok None) = Ok (Some cfg) →
    exists_ w yaml_home = true
    ∧ ConfigFile_init w (AsStr (absolute w yaml_home)) = Ok cfg
    ∧ _legacy_config cfg = None).
  { destruct (Path_exists w yaml_home) as [[|]|e4] eqn:H4; [|done..].
    apply Path_exists_inv in H4. intros Hinit%fmap_Some_inv.
    split; [done|]. split; [done|].
    assert (Hsuf : endswith (absolute w yaml_home) "yaml" = true).
    { apply endswith_absolute_joinpath; [by split|reflexivity..]. }
    by destruct (init_yaml_inv _ _ _ Hsuf Hinit) as (fh & _ & ->). }
  destruct (environ w !! "FLYTECTL_CONFIG") as [p|] eqn:Hp.
  - destruct (truthy (PStr p)) eqn:Htruthy.
    + destruct (Path_exists w p) as [[|]|e3] eqn:H3; [| |done];
        apply Path_exists_inv in H3.
      * left. exists p. apply fmap_Some_inv in Hres. split; [done|].
        split; [|done]. intros ->. discriminate.
      * right. split; [|by apply Hlast]. intros p' [= <-]. by right.
    + right. split; [|by apply Hlast]. intros p' [= <-]. left.
      simpl in Htruthy. apply negb_false_iff, String.eqb_eq in Htruthy. done.
  - right. split; [done|]. by apply Hlast.
Qed.

Lemma locator_loaded_candidate_witness :
  exists_ w_locator "flytekit.config" = false
  ∧ exists_ w_locator (joinpath (joinpath (home w_locator) ".flyte") "config") = false
  ∧ ((∃ p, environ w_locator !! "FLYTECTL_CONFIG" = Some p ∧ p ≠ EmptyString
           ∧ exists_ w_locator p = true
           ∧ ConfigFile_init w_locator (AsStr (absolute w_locator p))
             = Ok (yaml_backed "/etc/flyte/sandbox.yaml" doc_abc_42))
     ∨ ((∀ p, environ w_locator !! "FLYTECTL_CONFIG" = Some p →
              p = EmptyString ∨ exists_ w_locator p = false)
        ∧ exists_ w_locator
            (joinpath (joinpath (home w_locator) ".flyte") "config.yaml") = true
        ∧ ConfigFile_init w_locator
            (AsStr (absolute w_locator
                      (joinpath (joinpath (home w_locator) ".flyte") "config.yaml")))
          = Ok (yaml_backed "/etc/flyte/sandbox.yaml" doc_abc_42)
        ∧ _legacy_config (yaml_backed "/etc/flyte/sandbox.yaml" doc_abc_42) = None)).
Proof.
  apply (locator_loaded_candidate w_locator
           (yaml_backed "/etc/flyte/sandbox.yaml" doc_abc_42)).
  vm_compute. reflexivity.
Defined.

(** ** [set_if_exists] *)





(** ** Values and defaults of the INI file *)




(** ** The type of what a legacy entry reads *)

Lemma get_raises (p : ConfigParser) (s o : string) (e : exn) :
  configparser.get p s o = Raise e → ∃ c, e = ConfigparserError c.
Proof.
  unfold configparser.get, _unify_values.
  destruct (_sections p !! s) as [d|]; unfold_result.
  - destruct ((d ∪ _defaults p) !! lower o) as [[v|]|]; intros [= <-]; eauto.
  - case_bool_decide; [|intros [= <-]; eauto].
    destruct (_defaults p !! lower o) as [[v|]|]; intros [= <-]; eauto.
Qed.

Lemma int_of_str_raises (s : string) (e : exn) :
  int_of_str s = Raise e → e = ValueError.
Proof. unfold int_of_str. case_match; by intros [= <-]. Qed.

Lemma convert_to_boolean_raises (s : string) (e : exn) :
  _convert_to_boolean s = Raise e → e = ValueError.
Proof. unfold _convert_to_boolean. case_match; by intros [= <-]. Qed.

(** X15: without a transform, what a legacy entry reads from a file with
    a legacy document is absent or a value of the entry's type: a bool for a
    bool entry, an int for an int entry, a list of strings for a list entry,
    a string otherwise.  The only exception it raises is ValueError, and
    only for a bool or an int entry. *)
Theorem legacy_read_typed (cfg : ConfigFile) (p : ConfigParser) (l : LegacyConfigEntry) :
  _legacy_config cfg = Some p →
  match LegacyConfigEntry_read_from_file l (Some cfg) None with
  | Ok v =>
      v = PNone
      ∨ match type_ l with
        | Tbool => ∃ b, v = PBool b
        | Tint => ∃ z, v = PInt z
        | Tlist => ∃ parts : list string, v = PList (PStr <$> parts)
        | Tstr | Tother => ∃ s, v = PStr s
        end
  | Raise e => e = ValueError ∧ (type_ l = Tbool ∨ type_ l = Tint)
  end.
Proof.
  intros Hp. unfold LegacyConfigEntry_read_from_file, ConfigFile_get, _get_from_legacy.
  unfold legacy_parser, getboolean, getint. rewrite Hp.
  destruct (configparser.get p (section l) (option_ l)) as [raw|e] eqn:Hget.
  - destruct (type_ l); cbn [issubclass]; unfold_result; rewrite Hget.
    + right. eauto.
    + destruct (_convert_to_boolean raw) as [b|e] eqn:Hb; [right; eauto|].
      rewrite (convert_to_boolean_raises _ _ Hb). auto.
    + destruct (int_of_str raw) as [z|e] eqn:Hz; [right; eauto|].
      rewrite (int_of_str_raises _ _ Hz). auto.
    + right. eauto.
    + right. eauto.
  - destruct (get_raises _ _ _ _ Hget) as [c ->].
    destruct (type_ l); cbn [issubclass]; unfold_result; rewrite Hget; by left.
Qed.

Lemma legacy_read_typed_witness :
  match LegacyConfigEntry_read_from_file
          {| section := "platform"; option_ := "retries"; type_ := Tint |}
          (Some cfg_ini) None with
  | Ok v =>
      v = PNone
      ∨ match type_ {| section := "platform"; option_ := "retries"; type_ := Tint |} with
        | Tbool => ∃ b, v = PBool b
        | Tint => ∃ z, v = PInt z
        | Tlist => ∃ parts : list string, v = PList (PStr <$> parts)
        | Tstr | Tother => ∃ s, v = PStr s
        end
  | Raise e =>
      e = ValueError
      ∧ (type_ {| section := "platform"; option_ := "retries"; type_ := Tint |} = Tbool
         ∨ type_ {| section := "platform"; option_ := "retries"; type_ := Tint |} = Tint)
  end.
Proof.
  apply (legacy_read_typed cfg_ini ini_sample
           {| section := "platform"; option_ := "retries"; type_ := Tint |}).
  reflexivity.
Defined.

(** ** A legacy descriptor against a YAML-backed file *)

(** X16: on a ConfigFile without a legacy document, [get] of a legacy
    descriptor raises AttributeError, and [read_from_file] of the legacy
    entry lets it through, as it is not a [configparser.Error]. *)
Theorem get_legacy_on_yaml_file (cfg : ConfigFile) (l : LegacyConfigEntry)
    (t : option transformer) :
  _legacy_config cfg = None →
  ConfigFile_get cfg (DLegacy l) = Raise AttributeError
  ∧ LegacyConfigEntry_read_from_file l (Some cfg) t = Raise AttributeError.
Proof.
  intros Hnone.
  assert (Hget : ConfigFile_get cfg (DLegacy l) = Raise AttributeError).
  { unfold ConfigFile_get, _get_from_legacy, legacy_parser. rewrite Hnone.
    by repeat case_match. }
  split; [done|]. unfold LegacyConfigEntry_read_from_file. by rewrite Hget.
Qed.

Lemma get_legacy_on_yaml_file_witness :
  ConfigFile_get (yaml_backed "config.yaml" doc_abc_42) (DLegacy platform_url)
  = Raise AttributeError
  ∧ LegacyConfigEntry_read_from_file platform_url
      (Some (yaml_backed "config.yaml" doc_abc_42)) None = Raise AttributeError.
Proof.
  apply (get_legacy_on_yaml_file (yaml_backed "config.yaml" doc_abc_42) platform_url None).
  reflexivity.
Defined.

(** ** The boolean transform *)



(** ** Environment names and underscores *)

Lemma append_assoc (a b c : string) : (a +:+ b) +:+ c = a +:+ (b +:+ c).
Proof.
  induction a as [|x a IH]; [done|].
  change (String x ((a +:+ b) +:+ c) = String x (a +:+ (b +:+ c))). by rewrite IH.
Qed.

Lemma upper_app (a b : string) : upper (a +:+ b) = upper a +:+ upper b.
Proof.
  unfold upper. induction a as [|x a IH]; [done|].
  change (String (ascii_upper x) (map_string ascii_upper (a +:+ b))
          = String (ascii_upper x) (map_string ascii_upper a +:+ map_string ascii_upper b)).
  by rewrite IH.
Qed.

(** X18: the environment name does not tell where the section ends: an
    entry with section [s_x] and option [o] and an entry with section [s] and
    option [x_o] name the same variable, so they read the same value from
    every environment. *)
Theorem env_name_underscore (s x o : string) (ty ty' : pytype) (w : World)
    (t : option transformer) :
  let l := {| section := s +:+ "_" +:+ x; option_ := o; type_ := ty |} in
  let l' := {| section := s; option_ := x +:+ "_" +:+ o; type_ := ty' |} in
  env_name l = env_name l'
  ∧ LegacyConfigEntry_read_from_env l w t = LegacyConfigEntry_read_from_env l' w t.
Proof.
  intros l l'.
  assert (Hname : env_name l = env_name l').
  { unfold env_name, l, l'. cbn [section option_].
    rewrite !upper_app. change (upper "_") with "_".
    by rewrite !append_assoc. }
  split; [done|]. unfold LegacyConfigEntry_read_from_env. by rewrite Hname.
Qed.

(** ** Transforms on the YAML path *)

(** X19: with the environment variable unset, [read] against a file that
    holds no legacy document but a YAML document in which the entry's path
    leads to a true value [v] gives the transform of [v], or [v] itself
    without a transform; when the transform raises, the result is absent
    and nothing is raised. *)
Theorem read_yaml_value (self : ConfigEntry) (y : YamlConfigEntry) (w : World)
    (cfg : ConfigFile) (v : pyval) :
  environ w !! env_name (legacy self) = None →
  _legacy_config cfg = None →
  yaml_entry self = Some y →
  truthy (_yaml_config cfg) = true →
  walk (_yaml_config cfg) (split "." (switch y)) = Ok v →
  truthy v = true →
  ConfigEntry_read self w (Some cfg)
  = match apply_transform (transform self) v with
    | Ok r => Ok r
    | Raise _ => Ok PNone
    end.
Proof.
  intros Henv Hlegacy Hy Hdoc Hwalk Hv.
  unfold ConfigEntry_read, LegacyConfigEntry_read_from_env.
  rewrite Henv. unfold_result. cbn [negb is_None].
  unfold has_legacy_config, has_yaml_config. rewrite Hlegacy, Hy, Hdoc.
  rewrite bool_decide_eq_true_2 by eauto. cbn [andb].
  unfold YamlConfigEntry_read_from_file, ConfigFile_get, _get_from_yaml.
  rewrite Hdoc, Hwalk. unfold_result. by rewrite Hv.
Qed.

Lemma read_yaml_value_witness :
  ConfigEntry_read
    (ConfigEntry_new platform_url
       (Some {| switch := "a.b.c"; config_value_type := Tint |}) None)
    world_unset (Some (yaml_backed "config.yaml" doc_abc_42))
  = Ok (PInt 42).
Proof.
  apply (read_yaml_value
           (ConfigEntry_new platform_url
              (Some {| switch := "a.b.c"; config_value_type := Tint |}) None)
           {| switch := "a.b.c"; config_value_type := Tint |}
           world_unset (yaml_backed "config.yaml" doc_abc_42) (PInt 42)).
  all: vm_compute; reflexivity.
Defined.
